(** * DHCP server detection probes of package [dhcpd]

    A shallow embedding of [internal/dhcpd/check_other_dhcp.go]: the two
    probes [CheckIfOtherDHCPServersPresentV4] and
    [CheckIfOtherDHCPServersPresentV6], run against an explicit model of the
    host (interfaces, resolver, sockets, clock, inbound traffic).

    Conventions.
    - A Go pointer or interface value that may be nil is an [option]; a Go
      [(T, error)] result is a pair of two options, and the probe's own
      checks decide what is looked at.  Using a nil value panics.
    - Endpoint operations (bind, send, set deadline, receive, close) are
      recorded in a trace, so that "no network I/O" and "closed once" are
      statements about that trace.
    - Time is a logical clock in nanoseconds; only a blocking read lets it
      advance.  Logging is not modelled. *)

From Stdlib Require Import ZArith String List Bool Lia.
From Stdlib Require Import Init.Byte.
From stdpp Require Import base tactics option list gmap strings.

Local Open Scope Z_scope.
Local Open Scope string_scope.

(** ** Go values *)

(** Go's [error] values.  [fmt.Errorf] with a [%w] operand that is a non-nil
    error yields an error that unwraps to it; with no [%w] verb, or with a
    nil operand, it yields a plain error that unwraps to nothing. *)
Inductive error : Type :=
| ErrNew (msg : string)
| ErrOp (op : string) (timeout : bool)
| ErrWrap (format : string) (err : error).

Definition fmt_Errorf (format : string) (w : option error) : error :=
  match w with
  | Some e => ErrWrap format e
  | None => ErrNew format
  end.

Definition errors_Unwrap (e : error) : option error :=
  match e with
  | ErrWrap _ e' => Some e'
  | _ => None
  end.

(** [p != nil] *)
Definition notNil {A : Type} (p : option A) : bool :=
  match p with
  | Some _ => true
  | None => false
  end.

(** [bytes.Equal] *)
Fixpoint bytes_Equal (a b : list byte) : bool :=
  match a, b with
  | [], [] => true
  | x :: a', y :: b' => Byte.eqb x y && bytes_Equal a' b'
  | _, _ => false
  end.

(** ** Package [net] *)

Definition HardwareAddr : Type := list byte.
Definition IP : Type := list byte.

Record Interface : Type := mkInterface {
  iface_Index : Z;
  iface_Name : string;
  iface_HardwareAddr : HardwareAddr;
}.

Record UDPAddr : Type := mkUDPAddr {
  udp_IP : IP;
  udp_Port : Z;
  udp_Zone : string;
}.

(** A bound endpoint ([net.PacketConn]), named by its descriptor. *)
Definition Conn : Type := nat.

(** ** Package [dhcpv4] *)

(** [type TransactionID [4]byte] *)
Definition TransactionID4 : Type := (byte * byte * byte * byte)%type.

(** [xid[:]] *)
Definition slice4 (x : TransactionID4) : list byte :=
  let '(a, b, c, d) := x in [a; b; c; d].

Record Option4 : Type := mkOption4 {
  opt_Code : Z;
  opt_Value : list byte;
}.

Record DHCPv4 : Type := mkDHCPv4 {
  v4_OpCode : Z;
  v4_HWType : Z;
  v4_ClientHWAddr : HardwareAddr;
  v4_TransactionID : TransactionID4;
  v4_Options : gmap Z (list byte);
}.

Definition dhcpv4_OpcodeBootReply : Z := 2.
Definition iana_HWTypeEthernet : Z := 1.
Definition dhcpv4_OptionDHCPMessageType : Z := 53.

(** [o.Has(code)] and [o.Update(option)] on [dhcpv4.Options], a Go map. *)
Definition Options_Has (o : gmap Z (list byte)) (code : Z) : bool :=
  notNil (o !! code).

Definition Options_Update (m : DHCPv4) (o : Option4) : DHCPv4 :=
  mkDHCPv4 (v4_OpCode m) (v4_HWType m) (v4_ClientHWAddr m) (v4_TransactionID m)
           (<[opt_Code o := opt_Value o]> (v4_Options m)).

(** ** Package [dhcpv6] *)

(** [type TransactionID [3]byte] *)
Definition TransactionID6 : Type := (byte * byte * byte)%type.

Definition TransactionID6_eqb (x y : TransactionID6) : bool :=
  let '(a, b, c) := x in
  let '(a', b', c') := y in
  Byte.eqb a a' && Byte.eqb b b' && Byte.eqb c c'.

Definition dhcpv6_MessageTypeAdvertise : Z := 2.
Definition dhcpv6_DefaultClientPort : Z := 546.

(** [dhcpv6.Message], over the library's type of options. *)
Record Message (MessageOptions : Type) : Type := mkMessage {
  msg_MessageType : Z;
  msg_TransactionID : TransactionID6;
  msg_Options : MessageOptions;
}.
Arguments mkMessage {MessageOptions} _ _ _.
Arguments msg_MessageType {MessageOptions} _.
Arguments msg_TransactionID {MessageOptions} _.
Arguments msg_Options {MessageOptions} _.

(** ** The collaborators

    What the probes use of the libraries: the address helpers of [net] and
    the packet codecs of [dhcpv4] and [dhcpv6].  [DHCPv6] is the Go
    interface of that name, with its methods [Type] and [GetInnerMessage];
    [Duid] and [MessageOptions] are the library's types, seen through
    [ClientID] and [Equal]. *)
Class Library : Type := {
  IP_String : IP -> string;
  net_JoinHostPort : string -> string -> string;
  IP_To4 : IP -> IP;
  IP_To16 : IP -> IP;
  IP_Equal : IP -> IP -> bool;

  dhcpv4_OptClientIdentifier : list byte -> Option4;
  dhcpv4_OptHostName : string -> Option4;
  DHCPv4_ToBytes : DHCPv4 -> list byte;
  dhcpv4_FromBytes : list byte -> option DHCPv4 * option error;

  Duid : Type;
  MessageOptions : Type;
  DHCPv6 : Type;
  Duid_Equal : Duid -> Duid -> bool;
  Options_ClientID : MessageOptions -> option Duid;
  DHCPv6_Type : DHCPv6 -> Z;
  DHCPv6_GetInnerMessage : DHCPv6 -> option (Message MessageOptions) * option error;
  Message_ToBytes : Message MessageOptions -> list byte;
  dhcpv6_FromBytes : list byte -> option DHCPv6 * option error;
}.

(** What the probes use of their own package and that other files of the
    package declare: the constant [defaultDiscoverTime], the classifier
    [isTimeout] and the two address lookups. *)
Class Package : Type := {
  defaultDiscoverTime : Z;
  isTimeout : option error -> bool;
  getIfaceIPv4 : Interface -> list IP;
  getIfaceIPv6 : Interface -> list IP;
}.

(** ** The host *)

(** Endpoint operations, in the order they were performed. *)
Inductive Event : Type :=
| EvBind (ifaceName : string) (port : Z) (c : option Conn) (err : option error)
| EvWriteTo (c : Conn) (b : list byte) (dst : option UDPAddr)
| EvSetReadDeadline (c : Conn) (t : Z)
| EvReadFrom (c : Conn) (size : nat) (returned : Z)
| EvClose (c : Conn).

(** The error a read returns when its deadline passes. *)
Definition errDeadlineExceeded : error := ErrOp "read" true.

(** How a call ends: with a value, with a panic, never (a read that blocks
    for ever), or not within the iterations granted to the loop. *)
Inductive Res (A : Type) : Type :=
| Val (a : A)
| Panic
| Blocked
| OutOfFuel.
Arguments Val {A} a.
Arguments Panic {A}.
Arguments Blocked {A}.
Arguments OutOfFuel {A}.

(** The call came to an end: it returned a value or it panicked. *)
Definition exits {A : Type} (r : Res A) : Prop :=
  r = Panic \/ exists v, r = Val v.

(** How an iteration of a [for] loop ends. *)
Inductive Step (A : Type) : Type :=
| Continue
| Return (a : A).
Arguments Continue {A}.
Arguments Return {A} a.

Section Probes.

Context {lib : Library} {pkg : Package}.

(** The host a probe runs on.  The first group is what the host answers to
    the calls a probe makes (fixed during a probe, the random transaction
    and client identifiers included); the second is the state that the
    probe's endpoint and the clock go through.  [w_inbound] is what will
    reach the endpoint: for each arrival its time and either a datagram or
    the error that the read fails with. *)
Record World : Type := mkWorld {
  w_GOOS : string;
  w_InterfaceByName : string -> option Interface * option error;
  w_Hostname : string * option error;
  w_NewDiscovery : HardwareAddr -> option DHCPv4 * option error;
  w_NewSolicit : HardwareAddr -> option (Message MessageOptions) * option error;
  w_ResolveUDPAddr : string -> string -> option UDPAddr * option error;
  w_NewRawUDPConn : string -> Z -> option Conn * option error;
  w_NewIPv6UDPConn : string -> Z -> option Conn * option error;
  w_WriteTo : Conn -> list byte -> option UDPAddr -> Z * option error;

  w_now : Z;
  w_deadline : option Z;
  w_inbound : list (Z * (list byte + error));
  w_trace : list Event;
}.

Definition set_dynamic (w : World) (now : Z) (deadline : option Z)
    (inbound : list (Z * (list byte + error))) (trace : list Event) : World :=
  mkWorld (w_GOOS w) (w_InterfaceByName w) (w_Hostname w) (w_NewDiscovery w)
          (w_NewSolicit w) (w_ResolveUDPAddr w) (w_NewRawUDPConn w)
          (w_NewIPv6UDPConn w) (w_WriteTo w) now deadline inbound trace.

Definition record (e : Event) (w : World) : World :=
  set_dynamic w (w_now w) (w_deadline w) (w_inbound w) (w_trace w ++ [e]).

(** ** The monad of a probe: state passing over the host. *)
Definition M (A : Type) : Type := World -> Res A * World.

#[global] Instance M_ret : MRet M := fun A a w => (Val a, w).

#[global] Instance M_bind : MBind M := fun A B f m w =>
  match m w with
  | (Val a, w') => f a w'
  | (Panic, w') => (Panic, w')
  | (Blocked, w') => (Blocked, w')
  | (OutOfFuel, w') => (OutOfFuel, w')
  end.

(** Using a value obtained through a pointer or an interface. *)
Definition deref {A : Type} (p : option A) : M A := fun w =>
  match p with
  | Some a => (Val a, w)
  | None => (Panic, w)
  end.

(** [defer d]: [d] runs when the body returns or panics. *)
Definition defer {A : Type} (d : M unit) (body : M A) : M A := fun w =>
  match body w with
  | (Val a, w') => (Val a, snd (d w'))
  | (Panic, w') => (Panic, snd (d w'))
  | (Blocked, w') => (Blocked, w')
  | (OutOfFuel, w') => (OutOfFuel, w')
  end.

(** [for { body }]: an iteration either goes on or returns. *)
Fixpoint forLoop {A : Type} (fuel : nat) (body : M (Step A)) : M A :=
  match fuel with
  | O => fun w => (OutOfFuel, w)
  | S fuel' =>
      s ← body;
      match s with
      | Continue => forLoop fuel' body
      | Return a => mret a
      end
  end.

(** ** The calls a probe makes *)

Definition runtime_GOOS : M string := fun w => (Val (w_GOOS w), w).

Definition net_InterfaceByName (name : string) : M (option Interface * option error) :=
  fun w => (Val (w_InterfaceByName w name), w).

Definition os_Hostname : M (string * option error) :=
  fun w => (Val (w_Hostname w), w).

Definition dhcpv4_NewDiscovery (hw : HardwareAddr) : M (option DHCPv4 * option error) :=
  fun w => (Val (w_NewDiscovery w hw), w).

Definition dhcpv6_NewSolicit (hw : HardwareAddr)
    : M (option (Message MessageOptions) * option error) :=
  fun w => (Val (w_NewSolicit w hw), w).

Definition net_ResolveUDPAddr (network address : string) : M (option UDPAddr * option error) :=
  fun w => (Val (w_ResolveUDPAddr w network address), w).

Definition time_Now : M Z := fun w => (Val (w_now w), w).

Definition nclient4_NewRawUDPConn (ifaceName : string) (port : Z)
    : M (option Conn * option error) := fun w =>
  let '(c, err) := w_NewRawUDPConn w ifaceName port in
  (Val (c, err), record (EvBind ifaceName port c err) w).

Definition nclient6_NewIPv6UDPConn (ifaceName : string) (port : Z)
    : M (option Conn * option error) := fun w =>
  let '(c, err) := w_NewIPv6UDPConn w ifaceName port in
  (Val (c, err), record (EvBind ifaceName port c err) w).

Definition Conn_WriteTo (c : Conn) (b : list byte) (dst : option UDPAddr)
    : M (Z * option error) := fun w =>
  (Val (w_WriteTo w c b dst), record (EvWriteTo c b dst) w).

(** Setting a deadline on an open endpoint succeeds. *)
Definition Conn_SetReadDeadline (c : Conn) (t : Z) : M (option error) := fun w =>
  (Val None,
   set_dynamic w (w_now w) (Some t) (w_inbound w) (w_trace w ++ [EvSetReadDeadline c t])).

Definition Conn_Close (c : Conn) : M unit := fun w =>
  (Val tt, record (EvClose c) w).

(** Does an arrival at time [t] come before the deadline passes? *)
Definition in_time (deadline : option Z) (t : Z) : bool :=
  match deadline with
  | Some d => bool_decide (t <= d)
  | None => true
  end.

(** The arrival that the next read returns with, if it comes in time. *)
Definition next_arrival (w : World)
    : option (Z * (list byte + error) * list (Z * (list byte + error))) :=
  match w_inbound w with
  | (t, a) :: rest => if in_time (w_deadline w) t then Some (t, a, rest) else None
  | [] => None
  end.

(** [c.ReadFrom(b)] with [len(b) = size], giving [(b[:n], err)].  The read
    waits for the next arrival; it returns at that arrival's time with the
    datagram cut to the buffer, or with the arrival's error; if the deadline
    passes first it returns then, with [errDeadlineExceeded].  With no
    deadline and nothing to arrive it never returns. *)
Definition Conn_ReadFrom (c : Conn) (size : nat) : M (list byte * option error) := fun w =>
  match next_arrival w with
  | Some (t, a, rest) =>
      let t' := Z.max (w_now w) t in
      (Val (match a with
            | inl p => (take size p, None)
            | inr e => ([], Some e)
            end),
       set_dynamic w t' (w_deadline w) rest (w_trace w ++ [EvReadFrom c size t']))
  | None =>
      match w_deadline w with
      | Some d =>
          let t' := Z.max (w_now w) d in
          (Val ([], Some errDeadlineExceeded),
           set_dynamic w t' (w_deadline w) (w_inbound w)
                       (w_trace w ++ [EvReadFrom c size t']))
      | None => (Blocked, w)
      end
  end.

(** ** [CheckIfOtherDHCPServersPresentV4] *)

(** The condition under which a decoded response is accepted (the five
    conjuncts of the [if !( ... )] of the receive loop). *)
Definition matchV4 (iface : Interface) (req response : DHCPv4) : bool :=
  Z.eqb (v4_OpCode response) dhcpv4_OpcodeBootReply &&
  Z.eqb (v4_HWType response) iana_HWTypeEthernet &&
  bytes_Equal (v4_ClientHWAddr response) (iface_HardwareAddr iface) &&
  bytes_Equal (slice4 (v4_TransactionID response)) (slice4 (v4_TransactionID req)) &&
  Options_Has (v4_Options response) dhcpv4_OptionDHCPMessageType.

(** An iteration from [dhcpv4.FromBytes(b[:n])] on. *)
Definition decodeV4 (iface : Interface) (req : DHCPv4) (b : list byte)
    : M (Step (bool * option error)) :=
  let '(response, err) := dhcpv4_FromBytes b in
  if notNil err then mret Continue else
  response ← deref response;
  if negb (matchV4 iface req response) then mret Continue else
  mret (Return (true, None)).

(** One iteration of the receive loop. *)
Definition recvV4 (iface : Interface) (req : DHCPv4) (c : Conn)
    : M (Step (bool * option error)) :=
  now ← time_Now;
  _ ← Conn_SetReadDeadline c (now + defaultDiscoverTime);
  '(b, err) ← Conn_ReadFrom c 1500;
  if isTimeout err then mret (Return (false, None)) else
  if notNil err then
    mret (Return (false, Some (fmt_Errorf "couldn't receive packet: %w" err)))
  else
  decodeV4 iface req b.

Definition CheckIfOtherDHCPServersPresentV4 (fuel : nat) (ifaceName : string)
    : M (bool * option error) :=
  '(iface, err) ← net_InterfaceByName ifaceName;
  if notNil err then
    mret (false, Some (fmt_Errorf "couldn't find interface by name %s: %w" err))
  else
  iface ← deref iface;
  match getIfaceIPv4 iface with
  | [] =>
      mret (false, Some (fmt_Errorf "couldn't find IPv4 address of interface %s %+v" None))
  | srcIP :: _ =>
  GOOS ← runtime_GOOS;
  if String.eqb GOOS "darwin" then
    mret (false, Some (fmt_Errorf "can't find DHCP server: not supported on macOS" None))
  else
  let src := net_JoinHostPort (IP_String srcIP) "68" in
  let dst := "255.255.255.255:67" in
  '(hostname, _) ← os_Hostname;
  '(req, err) ← dhcpv4_NewDiscovery (iface_HardwareAddr iface);
  if notNil err then
    mret (false, Some (fmt_Errorf "dhcpv4.NewDiscovery: %w" err))
  else
  req ← deref req;
  let req := Options_Update req (dhcpv4_OptClientIdentifier (iface_HardwareAddr iface)) in
  let req := Options_Update req (dhcpv4_OptHostName hostname) in
  '(udpAddr, err) ← net_ResolveUDPAddr "udp4" src;
  if notNil err then
    mret (false, Some (fmt_Errorf "couldn't resolve UDP address %s: %w" err))
  else
  udpAddr ← deref udpAddr;
  if negb (IP_Equal (IP_To4 (udp_IP udpAddr)) srcIP) then
    mret (false, Some (fmt_Errorf "resolved UDP address is not %s: %w" err))
  else
  '(dstAddr, err) ← net_ResolveUDPAddr "udp4" dst;
  if notNil err then
    mret (false, Some (fmt_Errorf "couldn't resolve UDP address %s: %w" err))
  else
  '(c, err) ← nclient4_NewRawUDPConn ifaceName 68;
  if notNil err then
    mret (false, Some (fmt_Errorf "couldn't listen on :68: %w" err))
  else
  defer (match c with Some c' => Conn_Close c' | None => mret tt end) (
    c ← deref c;
    '(_, err) ← Conn_WriteTo c (DHCPv4_ToBytes req) dstAddr;
    if notNil err then
      mret (false, Some (fmt_Errorf "couldn't send a packet to %s: %w" err))
    else
    forLoop fuel (recvV4 iface req c))
  end.

(** ** [CheckIfOtherDHCPServersPresentV6] *)

(** The condition under which a response is accepted.  [&&] stops at its
    first false operand, so [*rcid] and the call of [cid.Equal] are only
    reached when [rcid != nil] and the operands before it hold. *)
Definition matchV6 (req : Message MessageOptions) (resp : DHCPv6)
    (msg : Message MessageOptions) (cid rcid : option Duid) : M bool :=
  if Z.eqb (DHCPv6_Type resp) dhcpv6_MessageTypeAdvertise &&
     TransactionID6_eqb (msg_TransactionID msg) (msg_TransactionID req) &&
     notNil rcid
  then
    cid' ← deref cid;
    rcid' ← deref rcid;
    mret (Duid_Equal cid' rcid')
  else mret false.

(** An iteration from [dhcpv6.FromBytes(b[:n])] on. *)
Definition decodeV6 (req : Message MessageOptions) (b : list byte)
    : M (Step (bool * option error)) :=
  let '(resp, err) := dhcpv6_FromBytes b in
  if notNil err then mret Continue else
  resp ← deref resp;
  let cid := Options_ClientID (msg_Options req) in
  let '(msg, err) := DHCPv6_GetInnerMessage resp in
  if notNil err then mret Continue else
  msg ← deref msg;
  let rcid := Options_ClientID (msg_Options msg) in
  ok ← matchV6 req resp msg cid rcid;
  if (ok : bool) then mret (Return (true, None)) else
  mret Continue.

(** One iteration of the receive loop. *)
Definition recvV6 (req : Message MessageOptions) (c : Conn)
    : M (Step (bool * option error)) :=
  now ← time_Now;
  _ ← Conn_SetReadDeadline c (now + defaultDiscoverTime);
  '(b, err) ← Conn_ReadFrom c 4096;
  if isTimeout err then mret (Return (false, None)) else
  if notNil err then
    mret (Return (false, Some (fmt_Errorf "couldn't receive packet: %w" err)))
  else
  decodeV6 req b.

Definition CheckIfOtherDHCPServersPresentV6 (fuel : nat) (ifaceName : string)
    : M (bool * option error) :=
  '(iface, err) ← net_InterfaceByName ifaceName;
  if notNil err then
    mret (false, Some (fmt_Errorf "dhcpv6: net.InterfaceByName: %s: %w" err))
  else
  iface ← deref iface;
  match getIfaceIPv6 iface with
  | [] =>
      mret (false,
            Some (fmt_Errorf "dhcpv6: couldn't find IPv6 address of interface %s %+v" None))
  | srcIP :: _ =>
  let src := net_JoinHostPort (IP_String srcIP) "546" in
  let dst := "[ff02::1:2]:547" in
  '(req, err) ← dhcpv6_NewSolicit (iface_HardwareAddr iface);
  if notNil err then
    mret (false, Some (fmt_Errorf "dhcpv6: dhcpv6.NewSolicit: %w" err))
  else
  '(udpAddr, err) ← net_ResolveUDPAddr "udp6" src;
  if notNil err then
    mret (false, Some (fmt_Errorf "dhcpv6: Couldn't resolve UDP address %s: %w" err))
  else
  udpAddr ← deref udpAddr;
  if negb (IP_Equal (IP_To16 (udp_IP udpAddr)) srcIP) then
    mret (false, Some (fmt_Errorf "dhcpv6: Resolved UDP address is not %s: %w" err))
  else
  '(dstAddr, err) ← net_ResolveUDPAddr "udp6" dst;
  if notNil err then
    mret (false, Some (fmt_Errorf "dhcpv6: Couldn't resolve UDP address %s: %w" err))
  else
  '(c, err) ← nclient6_NewIPv6UDPConn ifaceName dhcpv6_DefaultClientPort;
  if notNil err then
    mret (false, Some (fmt_Errorf "dhcpv6: Couldn't listen on :546: %w" err))
  else
  defer (match c with Some c' => Conn_Close c' | None => mret tt end) (
    c ← deref c;
    req ← deref req;
    '(_, err) ← Conn_WriteTo c (Message_ToBytes req) dstAddr;
    if notNil err then
      mret (false, Some (fmt_Errorf "dhcpv6: Couldn't send a packet to %s: %w" err))
    else
    forLoop fuel (recvV6 req c))
  end.

(** ** Notions used in the statements *)

(** The read of one iteration: the deadline is set from the clock, then the
    read is made. *)
Definition readOnce (c : Conn) (size : nat) : M (list byte * option error) :=
  now ← time_Now;
  _ ← Conn_SetReadDeadline c (now + defaultDiscoverTime);
  Conn_ReadFrom c size.

(** The endpoints that a run closed, and those that it bound with success,
    in order. *)
Definition closed (evs : list Event) : list Conn :=
  omap (fun e => match e with EvClose c => Some c | _ => None end) evs.

Definition bound (evs : list Event) : list Conn :=
  omap (fun e => match e with EvBind _ _ (Some c) None => Some c | _ => None end) evs.

(** The deadlines that a run set, and the times at which its reads
    returned. *)
Definition deadlines (evs : list Event) : list Z :=
  omap (fun e => match e with EvSetReadDeadline _ t => Some t | _ => None end) evs.

Definition reads (evs : list Event) : list Z :=
  omap (fun e => match e with EvReadFrom _ _ t => Some t | _ => None end) evs.

(** [polls c size t0 evs t]: from time [t0] on, [evs] is one or more rounds
    of "set the read deadline of [c] to the current time plus
    [defaultDiscoverTime], then read"; each read returns no later than the
    deadline set for it, and the last one returns at [t]. *)
Inductive polls (c : Conn) (size : nat) : Z -> list Event -> Z -> Prop :=
| polls_last t0 t1 :
    t0 <= t1 <= t0 + defaultDiscoverTime ->
    polls c size t0
      [EvSetReadDeadline c (t0 + defaultDiscoverTime); EvReadFrom c size t1] t1
| polls_next t0 t1 evs t :
    t0 <= t1 <= t0 + defaultDiscoverTime ->
    polls c size t1 evs t ->
    polls c size t0
      (EvSetReadDeadline c (t0 + defaultDiscoverTime) :: EvReadFrom c size t1 :: evs) t.

(** Every arrival of [q] comes before the deadline of the read that waits
    for it, when the reads start at [now]. *)
Fixpoint on_time (now : Z) (q : list (Z * list byte)) : Prop :=
  match q with
  | [] => True
  | (t, _) :: q' => t <= now + defaultDiscoverTime /\ on_time (Z.max now t) q'
  end.

(** The conditions of acceptance, as the specification lists them. *)
Definition acceptedV4 (iface : Interface) (req response : DHCPv4) : Prop :=
  v4_OpCode response = dhcpv4_OpcodeBootReply /\
  v4_HWType response = iana_HWTypeEthernet /\
  v4_ClientHWAddr response = iface_HardwareAddr iface /\
  v4_TransactionID response = v4_TransactionID req /\
  is_Some (v4_Options response !! dhcpv4_OptionDHCPMessageType).

Definition acceptedV6 (req : Message MessageOptions) (cid : Duid) (resp : DHCPv6)
    (msg : Message MessageOptions) : Prop :=
  DHCPv6_Type resp = dhcpv6_MessageTypeAdvertise /\
  msg_TransactionID msg = msg_TransactionID req /\
  exists rcid, Options_ClientID (msg_Options msg) = Some rcid /\
               Duid_Equal cid rcid = true.

(** A datagram that the loop passes over: it does not decode, or (v6) has
    no inner message, or it decodes to a response that is not accepted. *)
Definition skippedV4 (iface : Interface) (req : DHCPv4) (p : list byte) : Prop :=
  match dhcpv4_FromBytes (take 1500 p) with
  | (_, Some _) => True
  | (Some response, None) => ~ acceptedV4 iface req response
  | (None, None) => False
  end.

Definition skippedV6 (req : Message MessageOptions) (cid : Duid) (p : list byte) : Prop :=
  match dhcpv6_FromBytes (take 4096 p) with
  | (_, Some _) => True
  | (Some resp, None) =>
      match DHCPv6_GetInnerMessage resp with
      | (_, Some _) => True
      | (Some msg, None) => ~ acceptedV6 req cid resp msg
      | (None, None) => False
      end
  | (None, None) => False
  end.

(** A datagram that decodes to an accepted response. *)
Definition matchingV4 (iface : Interface) (req : DHCPv4) (p : list byte) : Prop :=
  exists response,
    dhcpv4_FromBytes (take 1500 p) = (Some response, None) /\
    acceptedV4 iface req response.

Definition matchingV6 (req : Message MessageOptions) (cid : Duid) (p : list byte) : Prop :=
  exists resp msg,
    dhcpv6_FromBytes (take 4096 p) = (Some resp, None) /\
    DHCPv6_GetInnerMessage resp = (Some msg, None) /\
    acceptedV6 req cid resp msg.

(** The host lets the v4 probe get as far as its receive loop: the lookups
    and the bind succeed and the request [req] is sent from endpoint [c]. *)
Record SetupV4 (w : World) (ifaceName : string) (iface : Interface) (req : DHCPv4)
    (dstAddr : option UDPAddr) (c : Conn) : Prop := {
  s4_iface : w_InterfaceByName w ifaceName = (Some iface, None);
  s4_goos : String.eqb (w_GOOS w) "darwin" = false;
  s4_src : exists srcIP rest udpAddr,
      getIfaceIPv4 iface = srcIP :: rest /\
      w_ResolveUDPAddr w "udp4" (net_JoinHostPort (IP_String srcIP) "68")
        = (Some udpAddr, None) /\
      IP_Equal (IP_To4 (udp_IP udpAddr)) srcIP = true;
  s4_req : exists req0,
      w_NewDiscovery w (iface_HardwareAddr iface) = (Some req0, None) /\
      req = Options_Update
              (Options_Update req0 (dhcpv4_OptClientIdentifier (iface_HardwareAddr iface)))
              (dhcpv4_OptHostName (fst (w_Hostname w)));
  s4_dst : w_ResolveUDPAddr w "udp4" "255.255.255.255:67" = (dstAddr, None);
  s4_bind : w_NewRawUDPConn w ifaceName 68 = (Some c, None);
  s4_send : snd (w_WriteTo w c (DHCPv4_ToBytes req) dstAddr) = None;
}.

Record SetupV6 (w : World) (ifaceName : string) (iface : Interface)
    (req : Message MessageOptions) (dstAddr : option UDPAddr) (c : Conn) : Prop := {
  s6_iface : w_InterfaceByName w ifaceName = (Some iface, None);
  s6_src : exists srcIP rest udpAddr,
      getIfaceIPv6 iface = srcIP :: rest /\
      w_ResolveUDPAddr w "udp6" (net_JoinHostPort (IP_String srcIP) "546")
        = (Some udpAddr, None) /\
      IP_Equal (IP_To16 (udp_IP udpAddr)) srcIP = true;
  s6_req : w_NewSolicit w (iface_HardwareAddr iface) = (Some req, None);
  s6_dst : w_ResolveUDPAddr w "udp6" "[ff02::1:2]:547" = (dstAddr, None);
  s6_bind : w_NewIPv6UDPConn w ifaceName dhcpv6_DefaultClientPort = (Some c, None);
  s6_send : snd (w_WriteTo w c (Message_ToBytes req) dstAddr) = None;
}.

(** The state of the host when the receive loop is entered. *)
Definition at_loop (w : World) (ifaceName : string) (port : Z) (c : Conn)
    (b : list byte) (dstAddr : option UDPAddr) : World :=
  record (EvWriteTo c b dstAddr) (record (EvBind ifaceName port (Some c) None) w).

(** The v6 test on a request that carries [cid]. *)
Definition matchV6_with (req : Message MessageOptions) (cid : Duid) (resp : DHCPv6)
    (msg : Message MessageOptions) : bool :=
  Z.eqb (DHCPv6_Type resp) dhcpv6_MessageTypeAdvertise &&
  TransactionID6_eqb (msg_TransactionID msg) (msg_TransactionID req) &&
  match Options_ClientID (msg_Options msg) with
  | Some rcid => Duid_Equal cid rcid
  | None => false
  end.

(** What the two loop bodies have in common: an iteration makes one read
    and nothing else to the host; it goes on only after a read that
    succeeded. *)
Definition poll_body {R : Type} (c : Conn) (size : nat) (body : M (Step R)) : Prop :=
  forall w, exists b err w1 r,
    readOnce c size w = (Val (b, err), w1) /\
    body w = (r, w1) /\
    (r = Panic \/ (exists v, r = Val (Return v)) \/ (r = Val Continue /\ err = None)).

(** The interface has no address of the family, or does not exist. *)
Definition no_address (w : World) (getAddrs : Interface -> list IP) (ifaceName : string)
    : Prop :=
  match w_InterfaceByName w ifaceName with
  | (_, Some _) => True
  | (Some iface, None) => getAddrs iface = []
  | (None, None) => False
  end.

(** The host resolves the source address of the v4 probe to an address
    that is not the first IPv4 address of the interface. *)
Definition resolves_elsewhereV4 (w : World) (ifaceName : string) : Prop :=
  exists iface srcIP rest req0 udpAddr,
    w_InterfaceByName w ifaceName = (Some iface, None) /\
    getIfaceIPv4 iface = srcIP :: rest /\
    String.eqb (w_GOOS w) "darwin" = false /\
    w_NewDiscovery w (iface_HardwareAddr iface) = (Some req0, None) /\
    w_ResolveUDPAddr w "udp4" (net_JoinHostPort (IP_String srcIP) "68")
      = (Some udpAddr, None) /\
    IP_Equal (IP_To4 (udp_IP udpAddr)) srcIP = false.

Definition resolves_elsewhereV6 (w : World) (ifaceName : string) : Prop :=
  exists iface srcIP rest req udpAddr,
    w_InterfaceByName w ifaceName = (Some iface, None) /\
    getIfaceIPv6 iface = srcIP :: rest /\
    w_NewSolicit w (iface_HardwareAddr iface) = (req, None) /\
    w_ResolveUDPAddr w "udp6" (net_JoinHostPort (IP_String srcIP) "546")
      = (Some udpAddr, None) /\
    IP_Equal (IP_To16 (udp_IP udpAddr)) srcIP = false.

(** The events that a run from [w] to [w'] added to the trace. *)
Definition events (w w' : World) : list Event :=
  drop (length (w_trace w)) (w_trace w').

(** What the specification says of the deadline: in the run from [w] to
    [w'] it was set once, and the run took no longer than
    [defaultDiscoverTime]. *)
Definition within_single_window (w w' : World) : Prop :=
  (exists d, deadlines (events w w') = [d]) /\
  w_now w' <= w_now w + defaultDiscoverTime.

(** Datagrams as arrivals. *)
Definition arrivals (q : list (Z * list byte)) : list (Z * (list byte + error)) :=
  map (fun tp => (fst tp, inl (snd tp))) q.

(** What the specification says of the endpoint: the call came to an end,
    and the endpoints that it closed are those that it bound with success,
    each closed once, by the last thing the call did. *)
Definition closed_once (w : World) (res : Res (bool * option error) * World) : Prop :=
  exits (fst res) /\
  exists evs,
    w_trace (snd res) = (w_trace w ++ evs)%list /\
    closed evs = bound evs /\
    forall c, In c (bound evs) -> last evs = Some (EvClose c).

(** What the code does with the deadline: the loop came to an end, what it
    did to the endpoint [c] is a sequence of rounds "set the deadline to
    now plus [defaultDiscoverTime], read", so as many deadlines as reads,
    and it took no longer than [defaultDiscoverTime] for each read. *)
Definition deadline_per_read (c : Conn) (size : nat) (w : World)
    (res : Res (bool * option error) * World) : Prop :=
  exits (fst res) /\
  exists evs,
    w_trace (snd res) = (w_trace w ++ evs)%list /\
    polls c size (w_now w) evs (w_now (snd res)) /\
    length (deadlines evs) = length (reads evs) /\
    w_now (snd res) <= w_now w + Z.of_nat (length (reads evs)) * defaultDiscoverTime.

(** ** Notions used in the further properties *)

(** The datagrams that a run sent. *)
Definition sent (evs : list Event) : list (Conn * list byte * option UDPAddr) :=
  omap (fun e => match e with EvWriteTo c b dst => Some (c, b, dst) | _ => None end) evs.

(** The part of an iteration after the read ends in [s] on the datagram
    [p], read into a buffer of [size] bytes. *)
Definition decodes_to (decode : list byte -> M (Step (bool * option error)))
    (size : nat) (p : list byte) (s : Step (bool * option error)) : Prop :=
  forall w, decode (take size p) w = (Val s, w).

(** The time at which the last of the datagrams [q] has been read, for
    reads that start at [now]. *)
Definition latest (now : Z) (q : list (Z * list byte)) : Z :=
  fold_left Z.max (map fst q) now.

(** Nothing arrives before the deadline of a read that starts at [now]. *)
Definition nothing_in_time (now : Z) (q : list (Z * (list byte + error))) : Prop :=
  match q with
  | [] => True
  | (t, _) :: _ => now + defaultDiscoverTime < t
  end.

(** The host lets the v4 probe get as far as its bind: [iface] is found
    and has an address, the request [req] is built, both addresses
    resolve. *)
Record ReadyV4 (w : World) (ifaceName : string) (iface : Interface) (req : DHCPv4)
    (dstAddr : option UDPAddr) : Prop := {
  r4_iface : w_InterfaceByName w ifaceName = (Some iface, None);
  r4_goos : String.eqb (w_GOOS w) "darwin" = false;
  r4_src : exists srcIP rest udpAddr,
      getIfaceIPv4 iface = srcIP :: rest /\
      w_ResolveUDPAddr w "udp4" (net_JoinHostPort (IP_String srcIP) "68")
        = (Some udpAddr, None) /\
      IP_Equal (IP_To4 (udp_IP udpAddr)) srcIP = true;
  r4_req : exists req0,
      w_NewDiscovery w (iface_HardwareAddr iface) = (Some req0, None) /\
      req = Options_Update
              (Options_Update req0 (dhcpv4_OptClientIdentifier (iface_HardwareAddr iface)))
              (dhcpv4_OptHostName (fst (w_Hostname w)));
  r4_dst : w_ResolveUDPAddr w "udp4" "255.255.255.255:67" = (dstAddr, None);
}.

Record ReadyV6 (w : World) (ifaceName : string) (iface : Interface)
    (req : option (Message MessageOptions)) (dstAddr : option UDPAddr) : Prop := {
  r6_iface : w_InterfaceByName w ifaceName = (Some iface, None);
  r6_src : exists srcIP rest udpAddr,
      getIfaceIPv6 iface = srcIP :: rest /\
      w_ResolveUDPAddr w "udp6" (net_JoinHostPort (IP_String srcIP) "546")
        = (Some udpAddr, None) /\
      IP_Equal (IP_To16 (udp_IP udpAddr)) srcIP = true;
  r6_req : w_NewSolicit w (iface_HardwareAddr iface) = (req, None);
  r6_dst : w_ResolveUDPAddr w "udp6" "[ff02::1:2]:547" = (dstAddr, None);
}.

(** What a call of a probe does to endpoints, from the bind to the close:
    nothing; or a bind that fails; or a bind, one send that fails, the
    close; or a bind, one send, rounds of "set the deadline, read" on the
    endpoint bound, the close. *)
Inductive probe_trace (ifaceName : string) (port : Z) (size : nat) (now : Z)
    : list Event -> Prop :=
| trace_none : probe_trace ifaceName port size now []
| trace_bind_failed c err :
    notNil err = true \/ c = None ->
    probe_trace ifaceName port size now [EvBind ifaceName port c err]
| trace_send_failed c b dst :
    probe_trace ifaceName port size now
      [EvBind ifaceName port (Some c) None; EvWriteTo c b dst; EvClose c]
| trace_polled c b dst evs t :
    polls c size now evs t ->
    probe_trace ifaceName port size now
      (EvBind ifaceName port (Some c) None :: EvWriteTo c b dst :: evs ++ [EvClose c]).

(** The call did not detect a server: it panicked or returned [false]
    with an error. *)
Definition failed (r : Res (bool * option error)) : Prop :=
  r = Panic \/ exists e, r = Val (false, Some e).

End Probes.

(** ** A laboratory host

    A concrete library, package and host on which the probes can be run:
    one wired interface [eth0] with an IPv4 and an IPv6 address, one
    interface [wlan0] without addresses, and a toy wire format. *)
Module Lab.

Definition B (n : N) : byte := default x00 (Byte.of_N n).
Definition Zbyte (b : byte) : Z := Z.of_N (Byte.to_N b).

Definition v4InV6Prefix : list byte :=
  [x00; x00; x00; x00; x00; x00; x00; x00; x00; x00; xff; xff].

Definition To4 (ip : IP) : IP :=
  if bool_decide (length ip = 4%nat) then ip
  else if bool_decide (length ip = 16%nat) && bytes_Equal (take 12 ip) v4InV6Prefix
       then drop 12 ip
       else [].

Definition To16 (ip : IP) : IP :=
  if bool_decide (length ip = 4%nat) then (v4InV6Prefix ++ ip)%list
  else if bool_decide (length ip = 16%nat) then ip
       else [].

Definition Equal (ip x : IP) : bool :=
  if bool_decide (length ip = length x) then bytes_Equal ip x
  else if bool_decide (length ip = 4%nat) && bool_decide (length x = 16%nat)
       then bytes_Equal (take 12 x) v4InV6Prefix && bytes_Equal ip (drop 12 x)
  else if bool_decide (length ip = 16%nat) && bool_decide (length x = 4%nat)
       then bytes_Equal (take 12 ip) v4InV6Prefix && bytes_Equal (drop 12 ip) x
  else false.

(** Toy DHCPv4 wire format: opcode, hardware type, four bytes of
    transaction id, the length of the hardware address, the address, then
    one byte per option carried (its code, with an empty value). *)
Definition v4_encode (m : DHCPv4) : list byte :=
  let '(a, b, c, d) := v4_TransactionID m in
  B (Z.to_N (v4_OpCode m)) :: B (Z.to_N (v4_HWType m)) :: a :: b :: c :: d ::
  B (N.of_nat (length (v4_ClientHWAddr m))) ::
  (v4_ClientHWAddr m ++ map (fun kv => B (Z.to_N (fst kv))) (map_to_list (v4_Options m)))%list.

Definition v4_decode (b : list byte) : option DHCPv4 * option error :=
  match b with
  | op :: ht :: x1 :: x2 :: x3 :: x4 :: hlen :: rest =>
      let n := N.to_nat (Byte.to_N hlen) in
      if bool_decide (n <= length rest)%nat then
        (Some (mkDHCPv4 (Zbyte op) (Zbyte ht) (take n rest) (x1, x2, x3, x4)
                 (list_to_map (map (fun c => (Zbyte c, [])) (drop n rest)))), None)
      else (None, Some (ErrNew "buffer too short"))
  | _ => (None, Some (ErrNew "buffer too short"))
  end.

(** Toy DHCPv6 packets: a message, or a relay envelope around at most one
    message.  Toy wire format: the message type (12 and 13 are the relay
    types, followed by the relayed message if any), three bytes of
    transaction id, then the client identifier if there is one. *)
Inductive Packet6 : Type :=
| Plain (m : Message (option (list byte)))
| Relay (ty : Z) (inner : option (Message (option (list byte)))).

Definition msg_encode (m : Message (option (list byte))) : list byte :=
  let '(a, b, c) := msg_TransactionID m in
  B (Z.to_N (msg_MessageType m)) :: a :: b :: c :: default [] (msg_Options m).

Definition msg_decode (b : list byte) : option (Message (option (list byte))) :=
  match b with
  | ty :: x1 :: x2 :: x3 :: rest =>
      Some (mkMessage (Zbyte ty) (x1, x2, x3)
              (match rest with [] => None | _ => Some rest end))
  | _ => None
  end.

Definition v6_decode (b : list byte) : option Packet6 * option error :=
  match b with
  | [] => (None, Some (ErrNew "buffer too short"))
  | ty :: rest =>
      if bool_decide (Zbyte ty = 12) || bool_decide (Zbyte ty = 13)
      then (Some (Relay (Zbyte ty) (msg_decode rest)), None)
      else match msg_decode b with
           | Some m => (Some (Plain m), None)
           | None => (None, Some (ErrNew "buffer too short"))
           end
  end.

Definition Packet6_Type (p : Packet6) : Z :=
  match p with
  | Plain m => msg_MessageType m
  | Relay ty _ => ty
  end.

Definition Packet6_GetInnerMessage (p : Packet6)
    : option (Message (option (list byte))) * option error :=
  match p with
  | Plain m => (Some m, None)
  | Relay _ (Some m) => (Some m, None)
  | Relay _ None => (None, Some (ErrNew "no relayed message"))
  end.

Definition library : Library := {|
  IP_String := String.string_of_list_byte;
  net_JoinHostPort := fun host port => host ++ ":" ++ port;
  IP_To4 := To4;
  IP_To16 := To16;
  IP_Equal := Equal;
  dhcpv4_OptClientIdentifier := fun ident => mkOption4 61 ident;
  dhcpv4_OptHostName := fun name => mkOption4 12 (String.list_byte_of_string name);
  DHCPv4_ToBytes := v4_encode;
  dhcpv4_FromBytes := v4_decode;
  Duid := list byte;
  MessageOptions := option (list byte);
  DHCPv6 := Packet6;
  Duid_Equal := bytes_Equal;
  Options_ClientID := fun o => o;
  DHCPv6_Type := Packet6_Type;
  DHCPv6_GetInnerMessage := Packet6_GetInnerMessage;
  Message_ToBytes := msg_encode;
  dhcpv6_FromBytes := v6_decode;
|}.

(** Modelled from the spec: [isTimeout] is declared in another file of the
    package; the spec has it tell "the deadline I set on the socket elapsed"
    from any other I/O error.  Here: the error is a network operation error
    that reports a timeout. *)
Definition isTimeout_spec (err : option error) : bool :=
  match err with
  | Some (ErrOp _ timeout) => timeout
  | _ => false
  end.

Definition ip4 : IP := [B 192; B 168; B 1; B 10].
Definition ip6 : IP :=
  [B 254; B 128; x00; x00; x00; x00; x00; x00; x00; x00; x00; x00; x00; x00; x00; x01].
Definition mac : HardwareAddr := [x02; x00; x00; x00; x00; x01].

Definition package : Package := {|
  defaultDiscoverTime := 3000000000;
  isTimeout := isTimeout_spec;
  getIfaceIPv4 := fun i => if String.eqb (iface_Name i) "eth0" then [ip4] else [];
  getIfaceIPv6 := fun i => if String.eqb (iface_Name i) "eth0" then [ip6] else [];
|}.

Definition eth0 : Interface := mkInterface 2 "eth0" mac.
Definition wlan0 : Interface := mkInterface 3 "wlan0" [x02; x00; x00; x00; x00; x02].

Definition xid4 : TransactionID4 := (x0a, x0b, x0c, x0d).
Definition discover : DHCPv4 := mkDHCPv4 1 1 mac xid4 {[ 53 := [x01] ]}.

Definition xid6 : TransactionID6 := (x0a, x0b, x0c).
Definition duid : list byte := ([x00; x01; x00; x01] ++ mac)%list.
Definition solicit : Message (@MessageOptions library) := mkMessage 1 xid6 (Some duid).

(** The socket that a bind on this host returns. *)
Definition sock : Conn := 3%nat.

Definition world (goos : string) (inbound : list (Z * (list byte + error)))
    : @World library :=
  {| w_GOOS := goos;
     w_InterfaceByName := fun name =>
       if String.eqb name "eth0" then (Some eth0, None)
       else if String.eqb name "wlan0" then (Some wlan0, None)
       else (None, Some (ErrNew "no such network interface"));
     w_Hostname := ("lab", None);
     w_NewDiscovery := fun hw => (Some discover, None);
     w_NewSolicit := fun hw => (Some solicit, None);
     w_ResolveUDPAddr := fun network address =>
       if String.eqb network "udp4" then
         if String.eqb address "255.255.255.255:67"
         then (Some (mkUDPAddr [xff; xff; xff; xff] 67 ""), None)
         else (Some (mkUDPAddr ip4 68 ""), None)
       else
         if String.eqb address "[ff02::1:2]:547"
         then (Some (mkUDPAddr
                 [xff; x02; x00; x00; x00; x00; x00; x00;
                  x00; x00; x00; x00; x00; x01; x00; x02] 547 ""), None)
         else (Some (mkUDPAddr ip6 546 "eth0"), None);
     w_NewRawUDPConn := fun _ _ => (Some sock, None);
     w_NewIPv6UDPConn := fun _ _ => (Some sock, None);
     w_WriteTo := fun _ b _ => (Z.of_nat (length b), None);
     w_now := 0;
     w_deadline := None;
     w_inbound := inbound;
     w_trace := [] |}.

(** A DHCPOFFER answering [discover], and an ADVERTISE answering
    [solicit], on the toy wire. *)
Definition offer : list byte :=
  v4_encode (mkDHCPv4 2 1 mac xid4 {[ 53 := [x02] ]}).
Definition advertise : list byte :=
  msg_encode (mkMessage 2 xid6 (Some duid)).
Definition junk : list byte := [x01; x02].

(** The request that the v4 probe sends on this host. *)
Definition request4 : DHCPv4 :=
  Options_Update (Options_Update discover (mkOption4 61 mac))
                 (mkOption4 12 (String.list_byte_of_string "lab")).

(** What [offer] and [advertise] decode to. *)
Definition offer_response : DHCPv4 :=
  mkDHCPv4 2 1 mac xid4 (list_to_map [(53, [])]).
Definition advertise_message : Message (@MessageOptions library) :=
  mkMessage 2 xid6 (Some duid).

(** An error of the transport that is no timeout. *)
Definition refused : error := ErrOp "read" false.

(** The same host with a resolver that answers every name with another
    address. *)
Definition world_elsewhere : @World library :=
  let w := world "linux" [] in
  mkWorld (w_GOOS w) (w_InterfaceByName w) (w_Hostname w) (w_NewDiscovery w)
    (w_NewSolicit w)
    (fun network _ =>
       if String.eqb network "udp4"
       then (Some (mkUDPAddr [B 10; x00; x00; x01] 68 ""), None)
       else (Some (mkUDPAddr
               [B 254; B 128; x00; x00; x00; x00; x00; x00;
                x00; x00; x00; x00; x00; x00; x00; x02] 546 ""), None))
    (w_NewRawUDPConn w) (w_NewIPv6UDPConn w) (w_WriteTo w)
    (w_now w) (w_deadline w) (w_inbound w) (w_trace w).

(** The destinations that the resolver of this host gives. *)
Definition bcast4 : UDPAddr := mkUDPAddr [xff; xff; xff; xff] 67 "".
Definition mcast6 : UDPAddr :=
  mkUDPAddr [xff; x02; x00; x00; x00; x00; x00; x00;
             x00; x00; x00; x00; x00; x01; x00; x02] 547 "".

(** The same host with a bind that gives [bind] and a send that gives the
    error [sendErr]. *)
Definition host (bind : option Conn * option error) (sendErr : option error)
    (inbound : list (Z * (list byte + error))) : @World library :=
  let w := world "linux" inbound in
  mkWorld (w_GOOS w) (w_InterfaceByName w) (w_Hostname w) (w_NewDiscovery w)
    (w_NewSolicit w) (w_ResolveUDPAddr w)
    (fun _ _ => bind) (fun _ _ => bind)
    (fun _ b _ => (Z.of_nat (length b), sendErr))
    (w_now w) (w_deadline w) (w_inbound w) (w_trace w).

End Lab.

(** * Properties *)

Local Open Scope list_scope.

(** ** Comparisons *)

Lemma bytes_Equal_eq (a b : list byte) : bytes_Equal a b = true <-> a = b.
Proof.
  revert b. induction a as [|x a IH]; intros [|y b]; simpl; split; try done.
  - intros [Hxy Hab]%andb_true_iff.
    apply Byte.byte_dec_bl in Hxy. apply IH in Hab. congruence.
  - intros [= -> ->]. apply andb_true_iff. split.
    + by apply Byte.byte_dec_lb.
    + by apply IH.
Qed.

Lemma slice4_inj (x y : TransactionID4) : slice4 x = slice4 y <-> x = y.
Proof.
  destruct x as [[[a b] c] d], y as [[[a' b'] c'] d']. simpl.
  split; intros [= -> -> -> ->]; reflexivity.
Qed.

Lemma TransactionID6_eqb_eq (x y : TransactionID6) :
  TransactionID6_eqb x y = true <-> x = y.
Proof.
  destruct x as [[a b] c], y as [[a' b'] c']. simpl.
  rewrite !andb_true_iff. split.
  - intros [[Ha Hb] Hc]. apply Byte.byte_dec_bl in Ha, Hb, Hc. congruence.
  - intros [= -> -> ->]. repeat split; by apply Byte.byte_dec_lb.
Qed.

Lemma notNil_is_Some {A : Type} (p : option A) : notNil p = true <-> is_Some p.
Proof.
  destruct p as [a|]; simpl.
  - split; [eauto | reflexivity].
  - split; [discriminate | intros [? [=]]].
Qed.

Section Properties.

Context {lib : Library} {pkg : Package}.

(** The boolean test of the v4 loop is the conjunction of the five
    conditions. *)
Lemma matchV4_accepted (iface : Interface) (req response : DHCPv4) :
  matchV4 iface req response = true <-> acceptedV4 iface req response.
Proof.
  unfold matchV4, acceptedV4, Options_Has.
  rewrite !andb_true_iff, !Z.eqb_eq, !bytes_Equal_eq, slice4_inj, notNil_is_Some.
  tauto.
Qed.

(** ** One read *)

Lemma readOnce_run (c : Conn) (size : nat) (w : World) :
  exists b err w',
    readOnce c size w = (Val (b, err), w') /\
    w_trace w' =
      w_trace w ++ [EvSetReadDeadline c (w_now w + defaultDiscoverTime);
                    EvReadFrom c size (w_now w')] /\
    w_now w <= w_now w' /\
    (0 <= defaultDiscoverTime -> w_now w' <= w_now w + defaultDiscoverTime) /\
    (err = None -> S (length (w_inbound w')) = length (w_inbound w)) /\
    (length (w_inbound w') <= length (w_inbound w))%nat.
Proof.
  unfold readOnce, mbind, M_bind, time_Now, Conn_SetReadDeadline, Conn_ReadFrom,
    next_arrival. simpl.
  destruct (w_inbound w) as [|[t a] rest] eqn:Hq; simpl.
  - eexists _, _, _. split; [reflexivity|]. simpl.
    rewrite <- app_assoc. simpl. repeat split; try done; lia.
  - case_bool_decide as Ht; simpl.
    + destruct a as [p|e]; (eexists _, _, _; split; [reflexivity|]); simpl;
        rewrite <- app_assoc; simpl; repeat split; try done; lia.
    + eexists _, _, _. split; [reflexivity|]. simpl.
      rewrite <- app_assoc. simpl. repeat split; try done; lia.
Qed.

Lemma readOnce_arrival (c : Conn) (size : nat) (w : World) t p q :
  w_inbound w = (t, inl p) :: q ->
  t <= w_now w + defaultDiscoverTime ->
  exists w',
    readOnce c size w = (Val (take size p, None), w') /\
    w_inbound w' = q /\
    w_now w' = Z.max (w_now w) t.
Proof.
  intros Hq Ht.
  unfold readOnce, mbind, M_bind, time_Now, Conn_SetReadDeadline, Conn_ReadFrom,
    next_arrival. simpl.
  rewrite Hq. simpl. rewrite bool_decide_eq_true_2 by done.
  eexists. split; [reflexivity|]. done.
Qed.

(** ** One iteration *)

Lemma decodeV4_run (iface : Interface) (req : DHCPv4) (b : list byte) (w : World) :
  exists r,
    decodeV4 iface req b w = (r, w) /\
    (r = Panic \/ r = Val Continue \/ r = Val (Return (true, None))).
Proof.
  unfold decodeV4.
  destruct (dhcpv4_FromBytes b) as [[response|] [e|]]; simpl; eauto.
  unfold mbind, M_bind. simpl.
  destruct (matchV4 iface req response); simpl; eauto.
Qed.

Lemma matchV6_run (req : Message MessageOptions) (resp : DHCPv6)
    (msg : Message MessageOptions) (cid rcid : option Duid) (w : World) :
  exists r, matchV6 req resp msg cid rcid w = (r, w) /\ exits r.
Proof.
  unfold matchV6, exits.
  destruct (_ && _ && _); [|eauto].
  destruct cid as [cid|], rcid as [rcid|]; simpl; eauto.
Qed.

Lemma decodeV6_run (req : Message MessageOptions) (b : list byte) (w : World) :
  exists r,
    decodeV6 req b w = (r, w) /\
    (r = Panic \/ r = Val Continue \/ r = Val (Return (true, None))).
Proof.
  unfold decodeV6.
  destruct (dhcpv6_FromBytes b) as [[resp|] [e|]]; simpl; eauto.
  unfold mbind at 1, M_bind at 1. simpl.
  destruct (DHCPv6_GetInnerMessage resp) as [[msg|] [e|]]; simpl; eauto.
  unfold mbind at 1, M_bind at 1. simpl.
  unfold mbind at 1, M_bind at 1.
  destruct (matchV6_run req resp msg (Options_ClientID (msg_Options req))
              (Options_ClientID (msg_Options msg)) w) as (r & -> & [->|[[] ->]]);
    simpl; eauto.
Qed.

Lemma recvV4_readOnce (iface : Interface) (req : DHCPv4) (c : Conn) (w : World) b err w1 :
  readOnce c 1500 w = (Val (b, err), w1) ->
  recvV4 iface req c w =
    if isTimeout err then (Val (Return (false, None)), w1)
    else if notNil err then
      (Val (Return (false, Some (fmt_Errorf "couldn't receive packet: %w" err))), w1)
    else decodeV4 iface req b w1.
Proof.
  unfold recvV4, readOnce, mbind, M_bind, time_Now, Conn_SetReadDeadline. simpl.
  intros ->. destruct (isTimeout err); [done|]. by destruct (notNil err).
Qed.

Lemma recvV6_readOnce (req : Message MessageOptions) (c : Conn) (w : World) b err w1 :
  readOnce c 4096 w = (Val (b, err), w1) ->
  recvV6 req c w =
    if isTimeout err then (Val (Return (false, None)), w1)
    else if notNil err then
      (Val (Return (false, Some (fmt_Errorf "couldn't receive packet: %w" err))), w1)
    else decodeV6 req b w1.
Proof.
  unfold recvV6, readOnce, mbind, M_bind, time_Now, Conn_SetReadDeadline. simpl.
  intros ->. destruct (isTimeout err); [done|]. by destruct (notNil err).
Qed.

Lemma recvV4_poll (iface : Interface) (req : DHCPv4) (c : Conn) :
  poll_body c 1500 (recvV4 iface req c).
Proof.
  intros w. destruct (readOnce_run c 1500 w) as (b & err & w1 & Hr & _).
  exists b, err, w1. rewrite (recvV4_readOnce _ _ _ _ _ _ _ Hr).
  destruct (isTimeout err); [eauto 10|].
  destruct err as [e|]; simpl; [eauto 10|].
  destruct (decodeV4_run iface req b w1) as (r & -> & [->|[->| ->]]); eauto 10.
Qed.

Lemma recvV6_poll (req : Message MessageOptions) (c : Conn) :
  poll_body c 4096 (recvV6 req c).
Proof.
  intros w. destruct (readOnce_run c 4096 w) as (b & err & w1 & Hr & _).
  exists b, err, w1. rewrite (recvV6_readOnce _ _ _ _ _ _ Hr).
  destruct (isTimeout err); [eauto 10|].
  destruct err as [e|]; simpl; [eauto 10|].
  destruct (decodeV6_run req b w1) as (r & -> & [->|[->| ->]]); eauto 10.
Qed.

(** ** The receive loop *)

Lemma polls_bounds (c : Conn) (size : nat) t0 evs t :
  polls c size t0 evs t ->
  length (deadlines evs) = length (reads evs) /\
  (1 <= length (reads evs))%nat /\
  t0 <= t <= t0 + Z.of_nat (length (reads evs)) * defaultDiscoverTime.
Proof.
  induction 1 as [t0 t1 Ht | t0 t1 evs t Ht _ (IHd & IHn & IHt)]; simpl.
  - repeat split; lia.
  - rewrite IHd. repeat split; lia.
Qed.

(** A loop over such a body comes to an end on every finite inbound
    traffic: each iteration that goes on has taken one arrival.  What it
    does to the host is a sequence of rounds "set the deadline, read". *)
Lemma loop_run {R : Type} (c : Conn) (size : nat) (body : M (Step R)) :
  poll_body c size body ->
  forall fuel w,
    (length (w_inbound w) < fuel)%nat ->
    exists r w' evs,
      forLoop fuel body w = (r, w') /\
      exits r /\
      w_trace w' = w_trace w ++ evs /\
      closed evs = [] /\
      bound evs = [] /\
      (0 <= defaultDiscoverTime -> polls c size (w_now w) evs (w_now w')).
Proof.
  intros Hbody fuel. induction fuel as [|fuel IH]; intros w Hlen; [lia|].
  destruct (Hbody w) as (b & err & w1 & r & Hread & Hb & Hr).
  destruct (readOnce_run c size w) as (b' & err' & w1' & Hread' & Htr & Hle & Hd & Hq & _).
  rewrite Hread in Hread'. injection Hread' as <- <- <-.
  simpl. unfold mbind, M_bind. rewrite Hb.
  destruct Hr as [-> | [[v ->] | [-> ->]]].
  - exists Panic, w1, [EvSetReadDeadline c (w_now w + defaultDiscoverTime);
                       EvReadFrom c size (w_now w1)].
    repeat split; try done; [by left|]. intros HD. apply polls_last. auto with lia.
  - exists (Val v), w1, [EvSetReadDeadline c (w_now w + defaultDiscoverTime);
                         EvReadFrom c size (w_now w1)].
    repeat split; try done; [right; eauto|]. intros HD. apply polls_last. auto with lia.
  - destruct (IH w1) as (r & w' & evs & Hrun & Hex & Htr' & Hcl & Hbd & Hp).
    { specialize (Hq eq_refl). lia. }
    exists r, w', (EvSetReadDeadline c (w_now w + defaultDiscoverTime)
                   :: EvReadFrom c size (w_now w1) :: evs).
    repeat split; try done.
    + rewrite Htr', Htr, <- app_assoc. done.
    + intros HD. apply polls_next; auto with lia.
Qed.

(** The iterations granted beyond the length of the inbound traffic are
    not used: the result does not depend on them. *)
Lemma loop_fuel_irrelevant {R : Type} (c : Conn) (size : nat) (body : M (Step R)) :
  poll_body c size body ->
  forall fuel fuel' w,
    (length (w_inbound w) < fuel)%nat ->
    (fuel <= fuel')%nat ->
    forLoop fuel' body w = forLoop fuel body w.
Proof.
  intros Hbody fuel. induction fuel as [|fuel IH]; intros fuel' w Hlen Hle; [lia|].
  destruct fuel' as [|fuel']; [lia|].
  destruct (Hbody w) as (b & err & w1 & r & Hread & Hb & Hr).
  destruct (readOnce_run c size w) as (b' & err' & w1' & Hread' & _ & _ & _ & Hq & _).
  rewrite Hread in Hread'. injection Hread' as <- <- <-.
  simpl. unfold mbind, M_bind. rewrite Hb.
  destruct Hr as [-> | [[v ->] | [-> ->]]]; try done.
  apply IH; [|lia]. specialize (Hq eq_refl). lia.
Qed.

(** The test of the v6 loop does panic on a request without a client
    identifier, once a response gets as far as the comparison. *)
Lemma matchV6_nil_cid_panics (req : Message MessageOptions) (resp : DHCPv6)
    (msg : Message MessageOptions) (rcid : Duid) (w : World) :
  DHCPv6_Type resp = dhcpv6_MessageTypeAdvertise ->
  msg_TransactionID msg = msg_TransactionID req ->
  matchV6 req resp msg None (Some rcid) w = (Panic, w).
Proof.
  intros Hty Hx. unfold matchV6.
  apply Z.eqb_eq in Hty. apply TransactionID6_eqb_eq in Hx.
  by rewrite Hty, Hx.
Qed.

(** ** From the call to the loop *)

Lemma V4_after_setup (fuel : nat) (ifaceName : string) (w : World) iface req dstAddr c :
  SetupV4 w ifaceName iface req dstAddr c ->
  CheckIfOtherDHCPServersPresentV4 fuel ifaceName w =
    defer (Conn_Close c) (forLoop fuel (recvV4 iface req c))
          (at_loop w ifaceName 68 c (DHCPv4_ToBytes req) dstAddr).
Proof.
  intros [Hif Hgoos (srcIP & rest & udpAddr & Hip & Hres & Heq) (req0 & Hreq & ->)
            Hdst Hbind Hsend].
  unfold CheckIfOtherDHCPServersPresentV4, mbind, M_bind, net_InterfaceByName,
    runtime_GOOS, os_Hostname, dhcpv4_NewDiscovery, net_ResolveUDPAddr,
    nclient4_NewRawUDPConn, Conn_WriteTo, at_loop.
  simpl. rewrite Hif. simpl. rewrite Hip. rewrite Hgoos.
  destruct (w_Hostname w) as [hostname herr] eqn:Hh. simpl.
  rewrite Hreq. simpl. rewrite Hres. simpl. rewrite Heq. simpl.
  rewrite Hdst. simpl. rewrite Hbind. simpl.
  unfold defer, mbind, M_bind. simpl.
  destruct (w_WriteTo w c _ dstAddr) as [n serr]. simpl in Hsend. subst serr.
  simpl. reflexivity.
Qed.

Lemma V6_after_setup (fuel : nat) (ifaceName : string) (w : World) iface req dstAddr c :
  SetupV6 w ifaceName iface req dstAddr c ->
  CheckIfOtherDHCPServersPresentV6 fuel ifaceName w =
    defer (Conn_Close c) (forLoop fuel (recvV6 req c))
          (at_loop w ifaceName dhcpv6_DefaultClientPort c (Message_ToBytes req) dstAddr).
Proof.
  intros [Hif (srcIP & rest & udpAddr & Hip & Hres & Heq) Hreq Hdst Hbind Hsend].
  unfold CheckIfOtherDHCPServersPresentV6, mbind, M_bind, net_InterfaceByName,
    dhcpv6_NewSolicit, net_ResolveUDPAddr, nclient6_NewIPv6UDPConn, Conn_WriteTo, at_loop.
  simpl. rewrite Hif. simpl. rewrite Hip.
  rewrite Hreq. simpl. rewrite Hres. simpl. rewrite Heq. simpl.
  rewrite Hdst. simpl. rewrite Hbind. simpl.
  unfold defer, mbind, M_bind. simpl.
  destruct (w_WriteTo w c _ dstAddr) as [n serr]. simpl in Hsend. subst serr.
  simpl. reflexivity.
Qed.

Lemma recvV4_decoded (iface : Interface) (req : DHCPv4) (c : Conn) (w w1 : World)
    (b : list byte) (response : DHCPv4) :
  isTimeout None = false ->
  readOnce c 1500 w = (Val (b, None), w1) ->
  dhcpv4_FromBytes b = (Some response, None) ->
  recvV4 iface req c w =
    (Val (if matchV4 iface req response then Return (true, None) else Continue), w1).
Proof.
  intros Hnil Hread Hdec.
  rewrite (recvV4_readOnce _ _ _ _ _ _ _ Hread), Hnil. simpl.
  unfold decodeV4. rewrite Hdec. simpl. unfold mbind, M_bind. simpl.
  by destruct (matchV4 iface req response).
Qed.

Lemma matchV6_some (req : Message MessageOptions) (cid : Duid) (resp : DHCPv6)
    (msg : Message MessageOptions) (w : World) :
  matchV6 req resp msg (Some cid) (Options_ClientID (msg_Options msg)) w =
    (Val (matchV6_with req cid resp msg), w).
Proof.
  unfold matchV6, matchV6_with.
  destruct (Z.eqb _ _); simpl; [|done].
  destruct (TransactionID6_eqb _ _); simpl; [|done].
  by destruct (Options_ClientID (msg_Options msg)).
Qed.

Lemma matchV6_accepted (req : Message MessageOptions) (cid : Duid) (resp : DHCPv6)
    (msg : Message MessageOptions) :
  matchV6_with req cid resp msg = true <-> acceptedV6 req cid resp msg.
Proof.
  unfold matchV6_with, acceptedV6.
  rewrite !andb_true_iff, Z.eqb_eq, TransactionID6_eqb_eq.
  destruct (Options_ClientID (msg_Options msg)) as [rcid|].
  - split.
    + intros [[? ?] ?]. eauto.
    + intros (? & ? & r & [= <-] & ?). done.
  - split.
    + intros [_ [=]].
    + intros (_ & _ & r & [=] & _).
Qed.

Lemma recvV6_decoded (req : Message MessageOptions) (cid : Duid) (c : Conn)
    (w w1 : World) (b : list byte) (resp : DHCPv6) (msg : Message MessageOptions) :
  isTimeout None = false ->
  Options_ClientID (msg_Options req) = Some cid ->
  readOnce c 4096 w = (Val (b, None), w1) ->
  dhcpv6_FromBytes b = (Some resp, None) ->
  DHCPv6_GetInnerMessage resp = (Some msg, None) ->
  recvV6 req c w =
    (Val (if matchV6_with req cid resp msg then Return (true, None) else Continue), w1).
Proof.
  intros Hnil Hcid Hread Hdec Hinner.
  rewrite (recvV6_readOnce _ _ _ _ _ _ Hread), Hnil. simpl.
  unfold decodeV6. rewrite Hdec. simpl. unfold mbind at 1, M_bind at 1. simpl.
  rewrite Hinner. simpl. unfold mbind at 1, M_bind at 1. simpl.
  unfold mbind at 1, M_bind at 1. rewrite Hcid, matchV6_some.
  by destruct (matchV6_with req cid resp msg).
Qed.

(** ** The claims *)

Lemma forLoop_return {R : Type} (fuel : nat) (body : M (Step R)) (w w1 : World) (v : R) :
  body w = (Val (Return v), w1) ->
  forLoop (S fuel) body w = (Val v, w1).
Proof. intros Hb. simpl. unfold mbind, M_bind. by rewrite Hb. Qed.

Lemma forLoop_continue {R : Type} (fuel : nat) (body : M (Step R)) (w w1 : World) :
  body w = (Val Continue, w1) ->
  forLoop (S fuel) body w = forLoop fuel body w1.
Proof. intros Hb. simpl. unfold mbind, M_bind. by rewrite Hb. Qed.

(** C2.  In the receive loop of either probe, whatever iteration the loop
    is at (the host is in any state [w]): when the error of the read is
    classified as a timeout by [isTimeout], the loop, and with it the
    probe, returns [(false, nil)]; when the read fails with an error that
    is not so classified, it returns [(false, err)] with a non-nil error
    that wraps the error of the read.  So a read error that is not a timeout
    never comes back as a negative result without error, and a timeout never
    comes back as an error. *)
Theorem C2_read_error_classified
    (iface : Interface) (req4 : DHCPv4) (req6 : Message MessageOptions) (c : Conn)
    (fuel : nat) (w : World) b4 b6 err w4 w6 :
  readOnce c 1500 w = (Val (b4, err), w4) ->
  readOnce c 4096 w = (Val (b6, err), w6) ->
  (isTimeout err = true ->
     forLoop (S fuel) (recvV4 iface req4 c) w = (Val (false, None), w4) /\
     forLoop (S fuel) (recvV6 req6 c) w = (Val (false, None), w6)) /\
  (isTimeout err = false ->
     forall e, err = Some e ->
       let wrapped := ErrWrap "couldn't receive packet: %w" e in
       errors_Unwrap wrapped = Some e /\
       forLoop (S fuel) (recvV4 iface req4 c) w = (Val (false, Some wrapped), w4) /\
       forLoop (S fuel) (recvV6 req6 c) w = (Val (false, Some wrapped), w6)).
Proof.
  intros H4 H6. split.
  - intros Ht. split; apply forLoop_return.
    + rewrite (recvV4_readOnce _ _ _ _ _ _ _ H4). by rewrite Ht.
    + rewrite (recvV6_readOnce _ _ _ _ _ _ H6). by rewrite Ht.
  - intros Ht e ->. simpl. split; [done|]. split; apply forLoop_return.
    + rewrite (recvV4_readOnce _ _ _ _ _ _ _ H4). by rewrite Ht.
    + rewrite (recvV6_readOnce _ _ _ _ _ _ H6). by rewrite Ht.
Qed.

(** C3.  In the v4 receive loop, for a read that succeeded and whose
    datagram decodes to [response]: the iteration returns [(true, nil)] if
    and only if the five conditions hold together (boot-reply opcode,
    Ethernet hardware type, client hardware address equal to the
    interface's, transaction id equal to the request's, a DHCP message-type
    option present); when one of them fails the response is dropped and the
    loop goes on.  In particular a response with another transaction id or
    another client hardware address is not accepted. *)
Theorem C3_v4_accept_iff
    (iface : Interface) (req : DHCPv4) (c : Conn) (w w1 : World)
    (b : list byte) (response : DHCPv4) :
  isTimeout None = false ->
  readOnce c 1500 w = (Val (b, None), w1) ->
  dhcpv4_FromBytes b = (Some response, None) ->
  (acceptedV4 iface req response <->
     recvV4 iface req c w = (Val (Return (true, None)), w1)) /\
  (~ acceptedV4 iface req response ->
     recvV4 iface req c w = (Val Continue, w1)) /\
  (v4_TransactionID response <> v4_TransactionID req \/
   v4_ClientHWAddr response <> iface_HardwareAddr iface ->
     recvV4 iface req c w = (Val Continue, w1)).
Proof.
  intros Hnil Hread Hdec.
  rewrite (recvV4_decoded _ _ _ _ _ _ _ Hnil Hread Hdec).
  pose proof (matchV4_accepted iface req response) as Hm.
  destruct (matchV4 iface req response).
  - assert (acceptedV4 iface req response) as Ha by tauto.
    split; [tauto|]. split; [tauto|].
    destruct Ha as (_ & _ & ? & ? & _). tauto.
  - assert (~ acceptedV4 iface req response) as Hn.
    { intros Ha. apply Hm in Ha. discriminate. }
    split; [|tauto]. split; [tauto|]. intros [=].
Qed.

(** C4.  In the v6 receive loop, with a request that carries the client
    identifier [cid], for a read that succeeded, whose datagram decodes to
    [resp] with inner message [msg]: the iteration returns [(true, nil)] if
    and only if the four conditions hold together (message type ADVERTISE,
    transaction id of the inner message equal to the request's, a client
    identifier present in the inner message, that identifier equal to
    [cid]); otherwise the response is dropped and the loop goes on.  In
    particular a response that is no ADVERTISE, or has no client identifier
    or another one, is not accepted. *)
Theorem C4_v6_accept_iff
    (req : Message MessageOptions) (cid : Duid) (c : Conn) (w w1 : World)
    (b : list byte) (resp : DHCPv6) (msg : Message MessageOptions) :
  isTimeout None = false ->
  Options_ClientID (msg_Options req) = Some cid ->
  readOnce c 4096 w = (Val (b, None), w1) ->
  dhcpv6_FromBytes b = (Some resp, None) ->
  DHCPv6_GetInnerMessage resp = (Some msg, None) ->
  (acceptedV6 req cid resp msg <->
     recvV6 req c w = (Val (Return (true, None)), w1)) /\
  (~ acceptedV6 req cid resp msg ->
     recvV6 req c w = (Val Continue, w1)) /\
  (DHCPv6_Type resp <> dhcpv6_MessageTypeAdvertise \/
   Options_ClientID (msg_Options msg) = None \/
   (exists rcid, Options_ClientID (msg_Options msg) = Some rcid /\
                 Duid_Equal cid rcid = false) ->
     recvV6 req c w = (Val Continue, w1)).
Proof.
  intros Hnil Hcid Hread Hdec Hinner.
  rewrite (recvV6_decoded _ _ _ _ _ _ _ _ Hnil Hcid Hread Hdec Hinner).
  pose proof (matchV6_accepted req cid resp msg) as Hm.
  destruct (matchV6_with req cid resp msg).
  - assert (acceptedV6 req cid resp msg) as Ha by tauto.
    split; [tauto|]. split; [tauto|].
    destruct Ha as (? & _ & r & Hr & He).
    intros [?|[Hn|(r' & Hr' & He')]]; [done|congruence|].
    rewrite Hr in Hr'. injection Hr' as <-. congruence.
  - assert (~ acceptedV6 req cid resp msg) as Hn.
    { intros Ha. apply Hm in Ha. discriminate. }
    split; [|tauto]. split; [tauto|]. intros [=].
Qed.

(** C9.  In the v6 matcher the nil check on [rcid] comes before [*rcid]:
    for a response whose inner message has no client identifier the test
    is false without a panic, whatever the request, and the iteration goes
    on; and for a request that carries a client identifier, as those of
    [dhcpv6.NewSolicit] do, the test never panics, so [cid] is safe to
    dereference on the path to acceptance. *)
Theorem C9_v6_nil_safe
    (req : Message MessageOptions) (resp : DHCPv6) (msg : Message MessageOptions)
    (w : World) :
  (forall cid, matchV6 req resp msg cid None w = (Val false, w)) /\
  (forall b,
     dhcpv6_FromBytes b = (Some resp, None) ->
     DHCPv6_GetInnerMessage resp = (Some msg, None) ->
     Options_ClientID (msg_Options msg) = None ->
     decodeV6 req b w = (Val Continue, w)) /\
  (forall cid rcid,
     Options_ClientID (msg_Options req) = Some cid ->
     exists ok,
       matchV6 req resp msg (Options_ClientID (msg_Options req)) rcid w = (Val ok, w) /\
       (ok = true -> exists r, rcid = Some r /\ Duid_Equal cid r = true)).
Proof.
  split; [|split].
  - intros cid. unfold matchV6. rewrite andb_false_r. done.
  - intros b Hdec Hinner Hr. unfold decodeV6. rewrite Hdec. simpl.
    unfold mbind at 1, M_bind at 1. simpl. rewrite Hinner. simpl.
    unfold mbind at 1, M_bind at 1. simpl.
    unfold mbind at 1, M_bind at 1. rewrite Hr.
    unfold matchV6. rewrite andb_false_r. done.
  - intros cid rcid ->. unfold matchV6.
    destruct rcid as [r|]; simpl.
    + destruct (_ && _ && _); simpl.
      * eexists. split; [reflexivity|]. eauto.
      * by eexists.
    + rewrite andb_false_r. by eexists.
Qed.

Ltac unfold_calls :=
  unfold mbind, M_bind, net_InterfaceByName, runtime_GOOS, os_Hostname,
    dhcpv4_NewDiscovery, dhcpv6_NewSolicit, net_ResolveUDPAddr,
    nclient4_NewRawUDPConn, nclient6_NewIPv6UDPConn, Conn_WriteTo; simpl.

(** C5.  For an interface name whose lookup fails, or whose interface has
    no address of the family asked for, each probe returns [false] with a
    non-nil error, the lookup's error wrapped or the error that says that no
    address was found, and leaves the host as it was: no endpoint was
    bound, nothing was sent or received. *)
Theorem C5_no_address_no_io
    (fuel4 fuel6 : nat) (name4 name6 : string) (w4 w6 : World) :
  no_address w4 getIfaceIPv4 name4 ->
  no_address w6 getIfaceIPv6 name6 ->
  (exists e,
     CheckIfOtherDHCPServersPresentV4 fuel4 name4 w4 = (Val (false, Some e), w4) /\
     (e = fmt_Errorf "couldn't find interface by name %s: %w"
            (snd (w_InterfaceByName w4 name4)) \/
      e = ErrNew "couldn't find IPv4 address of interface %s %+v")) /\
  (exists e,
     CheckIfOtherDHCPServersPresentV6 fuel6 name6 w6 = (Val (false, Some e), w6) /\
     (e = fmt_Errorf "dhcpv6: net.InterfaceByName: %s: %w"
            (snd (w_InterfaceByName w6 name6)) \/
      e = ErrNew "dhcpv6: couldn't find IPv6 address of interface %s %+v")).
Proof.
  unfold no_address. intros H4 H6. split.
  - unfold CheckIfOtherDHCPServersPresentV4. unfold_calls.
    destruct (w_InterfaceByName w4 name4) as [[iface|] [e|]]; simpl; try done; eauto.
    rewrite H4. eauto.
  - unfold CheckIfOtherDHCPServersPresentV6. unfold_calls.
    destruct (w_InterfaceByName w6 name6) as [[iface|] [e|]]; simpl; try done; eauto.
    rewrite H6. eauto.
Qed.

(** C7.  On darwin the v4 probe returns [false] with a non-nil error and
    leaves the host as it was (no bind, no send, no receive), whatever the
    interface; when the interface exists and has an IPv4 address, the
    error is the one that says that the platform is not supported. *)
Theorem C7_darwin_unsupported (fuel : nat) (ifaceName : string) (w : World) :
  w_GOOS w = "darwin" ->
  w_InterfaceByName w ifaceName <> (None, None) ->
  exists e,
    CheckIfOtherDHCPServersPresentV4 fuel ifaceName w = (Val (false, Some e), w) /\
    (forall iface,
       w_InterfaceByName w ifaceName = (Some iface, None) ->
       getIfaceIPv4 iface <> [] ->
       e = ErrNew "can't find DHCP server: not supported on macOS").
Proof.
  intros Hgoos Hlookup.
  unfold CheckIfOtherDHCPServersPresentV4. unfold_calls.
  destruct (w_InterfaceByName w ifaceName) as [[iface|] [e|]]; simpl; try done.
  - eexists. split; [reflexivity|]. intros ? [=].
  - destruct (getIfaceIPv4 iface) as [|srcIP rest] eqn:Hip.
    + eexists. split; [reflexivity|]. intros ? [= <-]. by rewrite Hip.
    + rewrite Hgoos. simpl. eexists. split; [reflexivity|]. done.
  - eexists. split; [reflexivity|]. intros ? [=].
Qed.

(** C10.  When the local address resolves, but to an IP that is not the
    first address of the interface, each probe returns [false] with a
    non-nil error before it binds (the host is left as it was), and that
    error has no underlying error: the operand of [%w] is the [err] of the
    resolution that has just succeeded, which is nil. *)
Theorem C10_mismatch_wraps_nil
    (fuel4 fuel6 : nat) (name4 name6 : string) (w4 w6 : World) :
  resolves_elsewhereV4 w4 name4 ->
  resolves_elsewhereV6 w6 name6 ->
  (let e := fmt_Errorf "resolved UDP address is not %s: %w" None in
   CheckIfOtherDHCPServersPresentV4 fuel4 name4 w4 = (Val (false, Some e), w4) /\
   errors_Unwrap e = None) /\
  (let e := fmt_Errorf "dhcpv6: Resolved UDP address is not %s: %w" None in
   CheckIfOtherDHCPServersPresentV6 fuel6 name6 w6 = (Val (false, Some e), w6) /\
   errors_Unwrap e = None).
Proof.
  intros (iface & srcIP & rest & req0 & udpAddr & Hif & Hip & Hgoos & Hreq & Hres & Hne)
         (iface' & srcIP' & rest' & req' & udpAddr' & Hif' & Hip' & Hreq' & Hres' & Hne').
  split; (split; [|reflexivity]).
  - unfold CheckIfOtherDHCPServersPresentV4. unfold_calls.
    rewrite Hif. simpl. rewrite Hip, Hgoos.
    destruct (w_Hostname w4) as [hostname herr]. simpl.
    rewrite Hreq. simpl. rewrite Hres. simpl. rewrite Hne. done.
  - unfold CheckIfOtherDHCPServersPresentV6. unfold_calls.
    rewrite Hif'. simpl. rewrite Hip', Hreq'. simpl.
    rewrite Hres'. simpl. rewrite Hne'. done.
Qed.

Lemma recvV4_undecoded (iface : Interface) (req : DHCPv4) (c : Conn) (w w1 : World)
    (b : list byte) response e :
  isTimeout None = false ->
  readOnce c 1500 w = (Val (b, None), w1) ->
  dhcpv4_FromBytes b = (response, Some e) ->
  recvV4 iface req c w = (Val Continue, w1).
Proof.
  intros Hnil Hread Hdec.
  rewrite (recvV4_readOnce _ _ _ _ _ _ _ Hread), Hnil. simpl.
  unfold decodeV4. by rewrite Hdec.
Qed.

Lemma recvV6_undecoded (req : Message MessageOptions) (c : Conn) (w w1 : World)
    (b : list byte) :
  isTimeout None = false ->
  readOnce c 4096 w = (Val (b, None), w1) ->
  (exists resp e, dhcpv6_FromBytes b = (resp, Some e)) \/
  (exists resp msg e, dhcpv6_FromBytes b = (Some resp, None) /\
                      DHCPv6_GetInnerMessage resp = (msg, Some e)) ->
  recvV6 req c w = (Val Continue, w1).
Proof.
  intros Hnil Hread Hdec.
  rewrite (recvV6_readOnce _ _ _ _ _ _ Hread), Hnil. simpl.
  unfold decodeV6.
  destruct Hdec as [(resp & e & ->) | (resp & msg & e & -> & Hinner)]; [done|].
  simpl. unfold mbind at 1, M_bind at 1. simpl. by rewrite Hinner.
Qed.

(** The v4 loop passes over the datagrams it does not accept and returns
    at the first one that it accepts. *)
Lemma loopV4_skips (iface : Interface) (req : DHCPv4) (c : Conn) :
  isTimeout None = false ->
  forall junk fuel w t good rest,
    w_inbound w = arrivals (junk ++ [(t, good)]) ++ rest ->
    Forall (fun tp => skippedV4 iface req (snd tp)) junk ->
    matchingV4 iface req good ->
    on_time (w_now w) (junk ++ [(t, good)]) ->
    (length junk < fuel)%nat ->
    exists w', forLoop fuel (recvV4 iface req c) w = (Val (true, None), w').
Proof.
  intros Hnil junk. induction junk as [|[t0 p0] junk IH];
    intros fuel w t good rest Hq Hskip Hgood Htime Hfuel;
    (destruct fuel as [|fuel]; [simpl in Hfuel; lia|]).
  - simpl in Hq, Htime. destruct Htime as [Ht _].
    destruct (readOnce_arrival c 1500 w _ _ _ Hq Ht) as (w1 & Hread & _ & _).
    destruct Hgood as (response & Hdec & Hacc).
    exists w1. apply forLoop_return.
    rewrite (recvV4_decoded _ _ _ _ _ _ _ Hnil Hread Hdec).
    apply matchV4_accepted in Hacc. by rewrite Hacc.
  - simpl in Hq, Htime. destruct Htime as [Ht Htime].
    destruct (readOnce_arrival c 1500 w _ _ _ Hq Ht) as (w1 & Hread & Hq1 & Hnow1).
    apply Forall_cons in Hskip as [Hp0 Hskip]. simpl in Hp0.
    assert (recvV4 iface req c w = (Val Continue, w1)) as Hstep.
    { unfold skippedV4 in Hp0.
      destruct (dhcpv4_FromBytes (take 1500 p0)) as [[response|] [e|]] eqn:Hdec;
        try done.
      - by eapply recvV4_undecoded.
      - rewrite (recvV4_decoded _ _ _ _ _ _ _ Hnil Hread Hdec).
        destruct (matchV4 iface req response) eqn:Hm; [|done].
        apply matchV4_accepted in Hm. done.
      - by eapply recvV4_undecoded. }
    rewrite (forLoop_continue _ _ _ _ Hstep).
    apply (IH fuel w1 t good rest); try done.
    + by rewrite Hnow1.
    + simpl in Hfuel. lia.
Qed.

Lemma loopV6_skips (req : Message MessageOptions) (cid : Duid) (c : Conn) :
  isTimeout None = false ->
  Options_ClientID (msg_Options req) = Some cid ->
  forall junk fuel w t good rest,
    w_inbound w = arrivals (junk ++ [(t, good)]) ++ rest ->
    Forall (fun tp => skippedV6 req cid (snd tp)) junk ->
    matchingV6 req cid good ->
    on_time (w_now w) (junk ++ [(t, good)]) ->
    (length junk < fuel)%nat ->
    exists w', forLoop fuel (recvV6 req c) w = (Val (true, None), w').
Proof.
  intros Hnil Hcid junk. induction junk as [|[t0 p0] junk IH];
    intros fuel w t good rest Hq Hskip Hgood Htime Hfuel;
    (destruct fuel as [|fuel]; [simpl in Hfuel; lia|]).
  - simpl in Hq, Htime. destruct Htime as [Ht _].
    destruct (readOnce_arrival c 4096 w _ _ _ Hq Ht) as (w1 & Hread & _ & _).
    destruct Hgood as (resp & msg & Hdec & Hinner & Hacc).
    exists w1. apply forLoop_return.
    rewrite (recvV6_decoded _ _ _ _ _ _ _ _ Hnil Hcid Hread Hdec Hinner).
    apply matchV6_accepted in Hacc. by rewrite Hacc.
  - simpl in Hq, Htime. destruct Htime as [Ht Htime].
    destruct (readOnce_arrival c 4096 w _ _ _ Hq Ht) as (w1 & Hread & Hq1 & Hnow1).
    apply Forall_cons in Hskip as [Hp0 Hskip]. simpl in Hp0.
    assert (recvV6 req c w = (Val Continue, w1)) as Hstep.
    { unfold skippedV6 in Hp0.
      destruct (dhcpv6_FromBytes (take 4096 p0)) as [[resp|] [e|]] eqn:Hdec;
        try done.
      - eapply recvV6_undecoded; eauto.
      - destruct (DHCPv6_GetInnerMessage resp) as [[msg|] [e|]] eqn:Hinner; try done.
        + eapply recvV6_undecoded; eauto 10.
        + rewrite (recvV6_decoded _ _ _ _ _ _ _ _ Hnil Hcid Hread Hdec Hinner).
          destruct (matchV6_with req cid resp msg) eqn:Hm; [|done].
          apply matchV6_accepted in Hm. done.
        + eapply recvV6_undecoded; eauto 10.
      - eapply recvV6_undecoded; eauto. }
    rewrite (forLoop_continue _ _ _ _ Hstep).
    apply (IH fuel w1 t good rest); try done.
    + by rewrite Hnow1.
    + simpl in Hfuel. lia.
Qed.

(** C6.  In both probes a datagram that does not decode, one (v6) whose
    inner message cannot be extracted and one that decodes to a response
    that is not accepted are passed over: the loop goes on to the next
    read.  So when the host lets the probe reach its loop and a matching
    reply comes after any finite number of such datagrams, each arriving
    before the deadline of the read that waits for it, the probe returns
    [(true, nil)]. *)
Theorem C6_skips_then_accepts
    (fuel4 fuel6 : nat) (name4 name6 : string) (w4 w6 : World)
    iface4 req4 dst4 c4 iface6 req6 dst6 c6 cid
    (junk4 junk6 : list (Z * list byte)) t4 good4 rest4 t6 good6 rest6 :
  isTimeout None = false ->
  SetupV4 w4 name4 iface4 req4 dst4 c4 ->
  w_inbound w4 = arrivals (junk4 ++ [(t4, good4)]) ++ rest4 ->
  Forall (fun tp => skippedV4 iface4 req4 (snd tp)) junk4 ->
  matchingV4 iface4 req4 good4 ->
  on_time (w_now w4) (junk4 ++ [(t4, good4)]) ->
  (length junk4 < fuel4)%nat ->
  SetupV6 w6 name6 iface6 req6 dst6 c6 ->
  Options_ClientID (msg_Options req6) = Some cid ->
  w_inbound w6 = arrivals (junk6 ++ [(t6, good6)]) ++ rest6 ->
  Forall (fun tp => skippedV6 req6 cid (snd tp)) junk6 ->
  matchingV6 req6 cid good6 ->
  on_time (w_now w6) (junk6 ++ [(t6, good6)]) ->
  (length junk6 < fuel6)%nat ->
  fst (CheckIfOtherDHCPServersPresentV4 fuel4 name4 w4) = Val (true, None) /\
  fst (CheckIfOtherDHCPServersPresentV6 fuel6 name6 w6) = Val (true, None).
Proof.
  intros Hnil Hs4 Hq4 Hj4 Hg4 Ht4 Hf4 Hs6 Hcid Hq6 Hj6 Hg6 Ht6 Hf6. split.
  - rewrite (V4_after_setup _ _ _ _ _ _ _ Hs4). unfold defer.
    destruct (loopV4_skips iface4 req4 c4 Hnil junk4 fuel4
                (at_loop w4 name4 68 c4 (DHCPv4_ToBytes req4) dst4)
                t4 good4 rest4) as (w' & ->); done.
  - rewrite (V6_after_setup _ _ _ _ _ _ _ Hs6). unfold defer.
    destruct (loopV6_skips req6 cid c6 Hnil Hcid junk6 fuel6
                (at_loop w6 name6 dhcpv6_DefaultClientPort c6 (Message_ToBytes req6) dst6)
                t6 good6 rest6) as (w' & ->); done.
Qed.

Ltac early_exit :=
  split; simpl;
  [ first [ by left | right; eexists; reflexivity ]
  | exists []; simpl; rewrite app_nil_r; by repeat split ].

Lemma closed_once_after_bind (c : Conn) (size : nat)
    (body : M (Step (bool * option error))) (fuel : nat) (w w1 : World)
    (ifaceName : string) (port : Z) (b : list byte) (dst : option UDPAddr) :
  poll_body c size body ->
  (length (w_inbound w) < fuel)%nat ->
  w1 = at_loop w ifaceName port c b dst ->
  closed_once w (defer (Conn_Close c) (forLoop fuel body) w1).
Proof.
  intros Hbody Hfuel ->.
  destruct (loop_run c size body Hbody fuel (at_loop w ifaceName port c b dst))
    as (r & w' & evs & Hrun & Hex & Htr & Hcl & Hbd & _); [done|].
  unfold defer. rewrite Hrun.
  assert (closed (EvBind ifaceName port (Some c) None :: EvWriteTo c b dst :: evs
                  ++ [EvClose c]) = [c]) as Hc.
  { unfold closed in *. simpl. rewrite omap_app, Hcl. done. }
  assert (bound (EvBind ifaceName port (Some c) None :: EvWriteTo c b dst :: evs
                 ++ [EvClose c]) = [c]) as Hb.
  { unfold bound in *. simpl. rewrite omap_app, Hbd. done. }
  assert (w_trace (record (EvClose c) w') =
          w_trace w ++ EvBind ifaceName port (Some c) None :: EvWriteTo c b dst :: evs
                       ++ [EvClose c]) as Ht.
  { simpl. rewrite Htr. simpl. rewrite <- !app_assoc. done. }
  destruct Hex as [-> | [v ->]]; (split; simpl; [unfold exits; eauto|]);
    (eexists; split; [exact Ht|]; split; [congruence|]);
    rewrite Hb; intros c' [<-|[]];
    by rewrite !app_comm_cons, last_snoc.
Qed.

Lemma closed_once_bind_failed (w : World) (ifaceName : string) (port : Z)
    (c : option Conn) (err : option error) (r : Res (bool * option error)) :
  exits r ->
  notNil err = true \/ c = None ->
  closed_once w (r, record (EvBind ifaceName port c err) w).
Proof.
  intros Hex Hfail. split; [done|]. simpl.
  exists [EvBind ifaceName port c err]. split; [done|].
  destruct Hfail as [He | ->].
  - destruct err; [|done]. by destruct c.
  - done.
Qed.

Lemma closed_once_closed (w w1 : World) (ifaceName : string) (port : Z)
    (c : Conn) (evs : list Event) (r : Res (bool * option error)) :
  exits r ->
  w_trace w1 = w_trace w ++ EvBind ifaceName port (Some c) None :: evs ->
  closed evs = [] -> bound evs = [] ->
  closed_once w (r, record (EvClose c) w1).
Proof.
  intros Hex Htr Hcl Hbd. split; [done|]. simpl.
  exists (EvBind ifaceName port (Some c) None :: evs ++ [EvClose c]).
  split; [by rewrite Htr, <- !app_assoc|].
  unfold closed, bound in *. simpl. rewrite !omap_app, Hcl, Hbd. simpl.
  split; [done|]. intros c' [<-|[]]. by rewrite app_comm_cons, last_snoc.
Qed.

(** C8.  Each call of either probe comes to an end, and the endpoints it
    closed are those it bound with success, each closed once, the close
    being the last thing the call did: after a bind that succeeded the
    endpoint is closed once on every way out (acceptance, timeout, an error
    of the send or of a read, a panic), and never twice. *)
Theorem C8_closed_exactly_once
    (fuel4 fuel6 : nat) (name4 name6 : string) (w4 w6 : World) :
  (length (w_inbound w4) < fuel4)%nat ->
  (length (w_inbound w6) < fuel6)%nat ->
  closed_once w4 (CheckIfOtherDHCPServersPresentV4 fuel4 name4 w4) /\
  closed_once w6 (CheckIfOtherDHCPServersPresentV6 fuel6 name6 w6).
Proof.
  intros Hf4 Hf6. split.
  - unfold CheckIfOtherDHCPServersPresentV4. unfold_calls.
    destruct (w_InterfaceByName w4 name4) as [[iface|] [e|]]; simpl;
      try early_exit.
    destruct (getIfaceIPv4 iface) as [|srcIP rest]; [early_exit|].
    destruct (String.eqb (w_GOOS w4) "darwin"); [early_exit|].
    destruct (w_Hostname w4) as [hostname herr]. simpl.
    destruct (w_NewDiscovery w4 _) as [[req0|] [e|]]; simpl; try early_exit.
    destruct (w_ResolveUDPAddr w4 "udp4" (net_JoinHostPort _ _))
      as [[udpAddr|] [e|]]; simpl; try early_exit.
    destruct (IP_Equal _ _); simpl; [|early_exit].
    destruct (w_ResolveUDPAddr w4 "udp4" _) as [dstAddr [e|]]; simpl;
      [early_exit|].
    destruct (w_NewRawUDPConn w4 name4 68) as [c [e|]] eqn:Hbind; simpl.
    { apply closed_once_bind_failed; [right; eauto | by left]. }
    destruct c as [c|]; simpl.
    2:{ unfold defer. simpl. apply closed_once_bind_failed; [by left | by right]. }
    match goal with
    | |- context [DHCPv4_ToBytes ?r] => set (req := r)
    end.
    destruct (w_WriteTo w4 c (DHCPv4_ToBytes req) dstAddr) as [n [e|]] eqn:Hsend.
    + unfold defer, mbind, M_bind. simpl. rewrite Hsend. simpl.
      apply (closed_once_closed w4 _ name4 68 c [EvWriteTo c (DHCPv4_ToBytes req) dstAddr]);
        [right; eauto | simpl; by rewrite <- app_assoc | done | done].
    + unfold defer, mbind, M_bind. simpl. rewrite Hsend. simpl.
      change (closed_once w4
                (defer (Conn_Close c) (forLoop fuel4 (recvV4 iface req c))
                   (at_loop w4 name4 68 c (DHCPv4_ToBytes req) dstAddr))).
      by eapply closed_once_after_bind; [apply recvV4_poll| |].
  - unfold CheckIfOtherDHCPServersPresentV6. unfold_calls.
    destruct (w_InterfaceByName w6 name6) as [[iface|] [e|]]; simpl;
      try early_exit.
    destruct (getIfaceIPv6 iface) as [|srcIP rest]; [early_exit|].
    destruct (w_NewSolicit w6 _) as [req [e|]]; simpl; [early_exit|].
    destruct (w_ResolveUDPAddr w6 "udp6" (net_JoinHostPort _ _))
      as [[udpAddr|] [e|]]; simpl; try early_exit.
    destruct (IP_Equal _ _); simpl; [|early_exit].
    destruct (w_ResolveUDPAddr w6 "udp6" _) as [dstAddr [e|]]; simpl;
      [early_exit|].
    destruct (w_NewIPv6UDPConn w6 name6 dhcpv6_DefaultClientPort)
      as [c [e|]] eqn:Hbind; simpl.
    { apply closed_once_bind_failed; [right; eauto | by left]. }
    destruct c as [c|]; simpl.
    2:{ unfold defer. simpl. apply closed_once_bind_failed; [by left | by right]. }
    destruct req as [req|].
    2:{ unfold defer, mbind, M_bind. simpl.
        apply (closed_once_closed w6 _ name6 dhcpv6_DefaultClientPort c []);
          [by left | done | done | done]. }
    destruct (w_WriteTo w6 c (Message_ToBytes req) dstAddr) as [n [e|]] eqn:Hsend.
    + unfold defer, mbind, M_bind. simpl. rewrite Hsend. simpl.
      apply (closed_once_closed w6 _ name6 dhcpv6_DefaultClientPort c
               [EvWriteTo c (Message_ToBytes req) dstAddr]);
        [right; eauto | simpl; by rewrite <- app_assoc | done | done].
    + unfold defer, mbind, M_bind. simpl. rewrite Hsend. simpl.
      change (closed_once w6
                (defer (Conn_Close c) (forLoop fuel6 (recvV6 req c))
                   (at_loop w6 name6 dhcpv6_DefaultClientPort c
                      (Message_ToBytes req) dstAddr))).
      by eapply closed_once_after_bind; [apply recvV6_poll| |].
Qed.

Lemma loop_deadline_per_read (c : Conn) (size : nat)
    (body : M (Step (bool * option error))) (fuel : nat) (w : World) :
  poll_body c size body ->
  0 <= defaultDiscoverTime ->
  (length (w_inbound w) < fuel)%nat ->
  deadline_per_read c size w (forLoop fuel body w).
Proof.
  intros Hbody HD Hfuel.
  destruct (loop_run c size body Hbody fuel w Hfuel)
    as (r & w' & evs & -> & Hex & Htr & _ & _ & Hp).
  specialize (Hp HD). destruct (polls_bounds _ _ _ _ _ Hp) as (Hn & _ & Ht).
  split; [done|]. exists evs. simpl. repeat split; try done. lia.
Qed.

(** C1, as the code has it.  In both probes the read deadline is set anew
    at the start of every iteration, to the time of that moment plus
    [defaultDiscoverTime], right before the read: the deadline is refreshed
    for each packet.  So each read returns within [defaultDiscoverTime] of
    its own start, and a receive loop that makes [k] reads comes to an end
    within [k] times [defaultDiscoverTime]. *)
Theorem C1_deadline_set_for_each_read
    (iface : Interface) (req4 : DHCPv4) (req6 : Message MessageOptions) (c : Conn)
    (fuel : nat) (w : World) :
  0 <= defaultDiscoverTime ->
  (length (w_inbound w) < fuel)%nat ->
  deadline_per_read c 1500 w (forLoop fuel (recvV4 iface req4 c) w) /\
  deadline_per_read c 4096 w (forLoop fuel (recvV6 req6 c) w).
Proof.
  intros HD Hfuel. split.
  - by apply loop_deadline_per_read; [apply recvV4_poll| |].
  - by apply loop_deadline_per_read; [apply recvV6_poll| |].
Qed.

End Properties.

(** * Runs on the laboratory host *)

(** C1 as the specification states it fails: two datagrams that do not
    decode arrive two and four seconds after the start; each probe sets
    three deadlines, at 3 s, 5 s and 7 s, and returns its negative result at
    7 s, more than one [defaultDiscoverTime] (3 s) after its first read. *)
Lemma C1_counterexample :
  let w := Lab.world "linux" [(2000000000, inl Lab.junk); (4000000000, inl Lab.junk)] in
  let r4 := CheckIfOtherDHCPServersPresentV4 (pkg := Lab.package) 3 "eth0" w in
  let r6 := CheckIfOtherDHCPServersPresentV6 (pkg := Lab.package) 3 "eth0" w in
  (fst r4 = Val (false, None) /\
   deadlines (events w (snd r4)) = [3000000000; 5000000000; 7000000000] /\
   w_now w + @defaultDiscoverTime Lab.package < w_now (snd r4) /\
   ~ within_single_window (pkg := Lab.package) w (snd r4)) /\
  (fst r6 = Val (false, None) /\
   deadlines (events w (snd r6)) = [3000000000; 5000000000; 7000000000] /\
   w_now w + @defaultDiscoverTime Lab.package < w_now (snd r6) /\
   ~ within_single_window (pkg := Lab.package) w (snd r6)).
Proof.
  cbv zeta. split; (split; [vm_compute; reflexivity|]);
    (split; [vm_compute; reflexivity|]);
    (split; [vm_compute; reflexivity|]);
    intros [[d Hd] _]; vm_compute in Hd; discriminate Hd.
Qed.

Lemma C1_deadline_set_for_each_read_witness :
  let w := Lab.world "linux" [(2000000000, inl Lab.junk); (4000000000, inl Lab.junk)] in
  deadline_per_read (pkg := Lab.package) Lab.sock 1500 w
    (forLoop 3 (recvV4 (pkg := Lab.package) Lab.eth0 Lab.request4 Lab.sock) w) /\
  deadline_per_read (pkg := Lab.package) Lab.sock 4096 w
    (forLoop 3 (recvV6 (pkg := Lab.package) Lab.solicit Lab.sock) w).
Proof.
  apply (@C1_deadline_set_for_each_read Lab.library Lab.package).
  - vm_compute. discriminate.
  - simpl. lia.
Defined.

Lemma C2_read_error_classified_witness :
  let w := Lab.world "linux" [(1000, inr Lab.refused)] in
  let wrapped := ErrWrap "couldn't receive packet: %w" Lab.refused in
  forLoop 1 (recvV4 (pkg := Lab.package) Lab.eth0 Lab.request4 Lab.sock) w
    = (Val (false, Some wrapped), snd (readOnce (pkg := Lab.package) Lab.sock 1500 w)) /\
  forLoop 1 (recvV6 (pkg := Lab.package) Lab.solicit Lab.sock) w
    = (Val (false, Some wrapped), snd (readOnce (pkg := Lab.package) Lab.sock 4096 w)).
Proof.
  intros w wrapped.
  refine (proj2 (proj2 (@C2_read_error_classified Lab.library Lab.package
            Lab.eth0 Lab.request4 Lab.solicit Lab.sock 0 w [] [] (Some Lab.refused)
            (snd (readOnce (pkg := Lab.package) Lab.sock 1500 w))
            (snd (readOnce (pkg := Lab.package) Lab.sock 4096 w)) _ _) _ Lab.refused _)).
  - reflexivity.
  - reflexivity.
  - reflexivity.
  - reflexivity.
Defined.

Lemma C3_v4_accept_iff_witness :
  let w := Lab.world "linux" [(1000, inl Lab.offer)] in
  acceptedV4 Lab.eth0 Lab.request4 Lab.offer_response /\
  recvV4 (pkg := Lab.package) Lab.eth0 Lab.request4 Lab.sock w
    = (Val (Return (true, None)), snd (readOnce (pkg := Lab.package) Lab.sock 1500 w)).
Proof.
  intros w.
  assert (acceptedV4 Lab.eth0 Lab.request4 Lab.offer_response) as Hacc.
  { repeat split; try reflexivity. vm_compute. eauto. }
  split; [exact Hacc|].
  refine (proj1 (proj1 (@C3_v4_accept_iff Lab.library Lab.package
            Lab.eth0 Lab.request4 Lab.sock w
            (snd (readOnce (pkg := Lab.package) Lab.sock 1500 w))
            Lab.offer Lab.offer_response _ _ _)) Hacc).
  - reflexivity.
  - reflexivity.
  - vm_compute. reflexivity.
Defined.

Lemma C4_v6_accept_iff_witness :
  let w := Lab.world "linux" [(1000, inl Lab.advertise)] in
  acceptedV6 Lab.solicit Lab.duid (Lab.Plain Lab.advertise_message)
    Lab.advertise_message /\
  recvV6 (pkg := Lab.package) Lab.solicit Lab.sock w
    = (Val (Return (true, None)), snd (readOnce (pkg := Lab.package) Lab.sock 4096 w)).
Proof.
  intros w.
  assert (acceptedV6 Lab.solicit Lab.duid (Lab.Plain Lab.advertise_message)
            Lab.advertise_message) as Hacc.
  { split; [reflexivity|]. split; [reflexivity|]. exists Lab.duid. by split. }
  split; [exact Hacc|].
  refine (proj1 (proj1 (@C4_v6_accept_iff Lab.library Lab.package
            Lab.solicit Lab.duid Lab.sock w
            (snd (readOnce (pkg := Lab.package) Lab.sock 4096 w))
            Lab.advertise (Lab.Plain Lab.advertise_message) Lab.advertise_message
            _ _ _ _ _)) Hacc).
  - reflexivity.
  - reflexivity.
  - reflexivity.
  - vm_compute. reflexivity.
  - reflexivity.
Defined.

Lemma C5_no_address_no_io_witness :
  let w := Lab.world "linux" [(1000, inl Lab.offer)] in
  (exists e,
     CheckIfOtherDHCPServersPresentV4 (pkg := Lab.package) 1 "wlan0" w
       = (Val (false, Some e), w) /\
     (e = fmt_Errorf "couldn't find interface by name %s: %w"
            (snd (w_InterfaceByName w "wlan0")) \/
      e = ErrNew "couldn't find IPv4 address of interface %s %+v")) /\
  (exists e,
     CheckIfOtherDHCPServersPresentV6 (pkg := Lab.package) 1 "tun0" w
       = (Val (false, Some e), w) /\
     (e = fmt_Errorf "dhcpv6: net.InterfaceByName: %s: %w"
            (snd (w_InterfaceByName w "tun0")) \/
      e = ErrNew "dhcpv6: couldn't find IPv6 address of interface %s %+v")).
Proof.
  intros w.
  apply (@C5_no_address_no_io Lab.library Lab.package 1 1 "wlan0" "tun0" w w).
  - reflexivity.
  - exact I.
Defined.

Lemma C6_skips_then_accepts_witness :
  let w4 := Lab.world "linux" [(1000, inl Lab.junk); (2000, inl Lab.offer)] in
  let w6 := Lab.world "linux" [(1000, inl Lab.junk); (2000, inl Lab.advertise)] in
  fst (CheckIfOtherDHCPServersPresentV4 (pkg := Lab.package) 2 "eth0" w4)
    = Val (true, None) /\
  fst (CheckIfOtherDHCPServersPresentV6 (pkg := Lab.package) 2 "eth0" w6)
    = Val (true, None).
Proof.
  intros w4 w6.
  apply (@C6_skips_then_accepts Lab.library Lab.package 2 2 "eth0" "eth0" w4 w6
           Lab.eth0 Lab.request4 (Some (mkUDPAddr [xff; xff; xff; xff] 67 "")) Lab.sock
           Lab.eth0 Lab.solicit
           (Some (mkUDPAddr [xff; x02; x00; x00; x00; x00; x00; x00;
                             x00; x00; x00; x00; x00; x01; x00; x02] 547 ""))
           Lab.sock Lab.duid
           [(1000, Lab.junk)] [(1000, Lab.junk)]
           2000 Lab.offer [] 2000 Lab.advertise []).
  - reflexivity.
  - constructor; try reflexivity.
    + exists Lab.ip4, [], (mkUDPAddr Lab.ip4 68 ""). repeat split; reflexivity.
    + exists Lab.discover. split; reflexivity.
  - reflexivity.
  - constructor; [exact I | constructor].
  - exists Lab.offer_response. split; [vm_compute; reflexivity|].
    repeat split; try reflexivity. vm_compute. eauto.
  - simpl. lia.
  - simpl. lia.
  - constructor; try reflexivity.
    exists Lab.ip6, [], (mkUDPAddr Lab.ip6 546 "eth0"). repeat split; reflexivity.
  - reflexivity.
  - reflexivity.
  - constructor; [exact I | constructor].
  - exists (Lab.Plain Lab.advertise_message), Lab.advertise_message.
    split; [vm_compute; reflexivity|]. split; [reflexivity|].
    split; [reflexivity|]. split; [reflexivity|]. exists Lab.duid. by split.
  - simpl. lia.
  - simpl. lia.
Defined.

Lemma C7_darwin_unsupported_witness :
  let w := Lab.world "darwin" [(1000, inl Lab.offer)] in
  exists e,
    CheckIfOtherDHCPServersPresentV4 (pkg := Lab.package) 2 "eth0" w
      = (Val (false, Some e), w) /\
    (forall iface,
       w_InterfaceByName w "eth0" = (Some iface, None) ->
       @getIfaceIPv4 Lab.package iface <> [] ->
       e = ErrNew "can't find DHCP server: not supported on macOS").
Proof.
  intros w.
  apply (@C7_darwin_unsupported Lab.library Lab.package 2 "eth0" w).
  - reflexivity.
  - discriminate.
Defined.

Lemma C8_closed_exactly_once_witness :
  let w4 := Lab.world "linux" [(1000, inl Lab.junk); (2000, inl Lab.offer)] in
  let w6 := Lab.world "linux" [(1000, inr Lab.refused)] in
  closed_once w4 (CheckIfOtherDHCPServersPresentV4 (pkg := Lab.package) 3 "eth0" w4) /\
  closed_once w6 (CheckIfOtherDHCPServersPresentV6 (pkg := Lab.package) 2 "eth0" w6).
Proof.
  intros w4 w6.
  apply (@C8_closed_exactly_once Lab.library Lab.package 3 2 "eth0" "eth0" w4 w6).
  - simpl. lia.
  - simpl. lia.
Defined.

Lemma C9_v6_nil_safe_witness :
  let w := Lab.world "linux" [] in
  let bare : Message (@MessageOptions Lab.library) := mkMessage 2 Lab.xid6 None in
  decodeV6 Lab.solicit (Lab.msg_encode bare) w = (Val Continue, w).
Proof.
  intros w bare.
  refine (proj1 (proj2 (@C9_v6_nil_safe Lab.library Lab.solicit (Lab.Plain bare) bare w))
            (Lab.msg_encode bare) _ _ _).
  - vm_compute. reflexivity.
  - reflexivity.
  - reflexivity.
Defined.

Lemma C10_mismatch_wraps_nil_witness :
  (let e := fmt_Errorf "resolved UDP address is not %s: %w" None in
   CheckIfOtherDHCPServersPresentV4 (pkg := Lab.package) 1 "eth0" Lab.world_elsewhere
     = (Val (false, Some e), Lab.world_elsewhere) /\
   errors_Unwrap e = None) /\
  (let e := fmt_Errorf "dhcpv6: Resolved UDP address is not %s: %w" None in
   CheckIfOtherDHCPServersPresentV6 (pkg := Lab.package) 1 "eth0" Lab.world_elsewhere
     = (Val (false, Some e), Lab.world_elsewhere) /\
   errors_Unwrap e = None).
Proof.
  apply (@C10_mismatch_wraps_nil Lab.library Lab.package 1 1 "eth0" "eth0"
           Lab.world_elsewhere Lab.world_elsewhere).
  - exists Lab.eth0, Lab.ip4, [], Lab.discover, (mkUDPAddr [Lab.B 10; x00; x00; x01] 68 "").
    repeat split; reflexivity.
  - exists Lab.eth0, Lab.ip6, [], (Some Lab.solicit),
      (mkUDPAddr [Lab.B 254; Lab.B 128; x00; x00; x00; x00; x00; x00;
                  x00; x00; x00; x00; x00; x00; x00; x02] 546 "").
    repeat split; reflexivity.
Defined.

(** * Further properties of the probes *)

Section Further.

Context {lib : Library} {pkg : Package}.

(** ** One read, in full *)

(** A read either returns with the next arrival, which came in time, or
    with the deadline error at the deadline, the inbound traffic untouched. *)
Lemma readOnce_inv (c : Conn) (size : nat) (w w1 : World) b err :
  readOnce c size w = (Val (b, err), w1) ->
  w_trace w1 =
    w_trace w ++ [EvSetReadDeadline c (w_now w + defaultDiscoverTime);
                  EvReadFrom c size (w_now w1)] /\
  ((exists t a,
      w_inbound w = (t, a) :: w_inbound w1 /\
      t <= w_now w + defaultDiscoverTime /\
      w_now w1 = Z.max (w_now w) t /\
      (b, err) = match a with
                 | inl p => (take size p, None)
                 | inr e => ([], Some e)
                 end) \/
   (nothing_in_time (w_now w) (w_inbound w) /\
    w_inbound w1 = w_inbound w /\
    w_now w1 = Z.max (w_now w) (w_now w + defaultDiscoverTime) /\
    b = [] /\ err = Some errDeadlineExceeded)).
Proof.
  unfold readOnce, mbind, M_bind, time_Now, Conn_SetReadDeadline, Conn_ReadFrom,
    next_arrival, nothing_in_time. simpl.
  destruct (w_inbound w) as [|[t a] rest] eqn:Hq; simpl.
  - intros [= <- <- <-]. simpl. rewrite <- app_assoc. split; [done|].
    by right.
  - case_bool_decide as Ht; simpl.
    + intros [= Hba <-]. simpl. rewrite <- app_assoc. split; [done|].
      left. exists t, a. repeat split; try done; by destruct a; injection Hba as <- <-.
    + intros [= <- <- <-]. simpl. rewrite <- app_assoc. split; [done|].
      right. repeat split; try done. lia.
Qed.

Lemma readOnce_quiet (c : Conn) (size : nat) (w : World) :
  nothing_in_time (w_now w) (w_inbound w) ->
  exists w1,
    readOnce c size w = (Val ([], Some errDeadlineExceeded), w1) /\
    w_inbound w1 = w_inbound w /\
    w_now w1 = Z.max (w_now w) (w_now w + defaultDiscoverTime) /\
    w_trace w1 =
      w_trace w ++ [EvSetReadDeadline c (w_now w + defaultDiscoverTime);
                    EvReadFrom c size (w_now w1)].
Proof.
  intros Hq.
  destruct (readOnce_run c size w) as (b & err & w1 & Hread & _).
  destruct (readOnce_inv _ _ _ _ _ _ Hread) as (Htr & [(t & a & Hin & Ht & _) | H]).
  - rewrite Hin in Hq. simpl in Hq. lia.
  - destruct H as (_ & Hin & Hnow & -> & ->). eauto.
Qed.

Lemma readOnce_datagram (c : Conn) (size : nat) (w : World) t p q :
  w_inbound w = (t, inl p) :: q ->
  t <= w_now w + defaultDiscoverTime ->
  exists w1,
    readOnce c size w = (Val (take size p, None), w1) /\
    w_inbound w1 = q /\
    w_now w1 = Z.max (w_now w) t /\
    w_trace w1 =
      w_trace w ++ [EvSetReadDeadline c (w_now w + defaultDiscoverTime);
                    EvReadFrom c size (w_now w1)].
Proof.
  intros Hq Ht.
  destruct (readOnce_arrival c size w t p q Hq Ht) as (w1 & Hread & Hin & Hnow).
  destruct (readOnce_inv _ _ _ _ _ _ Hread) as (Htr & _). eauto.
Qed.

(** ** The receive loop, for both probes at once

    The two loop bodies differ in the size of the buffer and in what they
    do with a datagram that was read. *)
Section Loop.

Variables (c : Conn) (size : nat).
Variable decode : list byte -> M (Step (bool * option error)).
Variable body : M (Step (bool * option error)).

Hypothesis body_reads : forall w b err w1,
  readOnce c size w = (Val (b, err), w1) ->
  body w =
    if isTimeout err then (Val (Return (false, None)), w1)
    else if notNil err then
      (Val (Return (false, Some (fmt_Errorf "couldn't receive packet: %w" err))), w1)
    else decode b w1.

Hypothesis decode_pure : forall b w, exists r,
  decode b w = (r, w) /\
  (r = Panic \/ r = Val Continue \/ r = Val (Return (true, None))).

Lemma body_poll : poll_body c size body.
Proof.
  intros w. destruct (readOnce_run c size w) as (b & err & w1 & Hr & _).
  exists b, err, w1. rewrite (body_reads _ _ _ _ Hr).
  destruct (isTimeout err); [eauto 10|].
  destruct err as [e|]; simpl; [eauto 10|].
  destruct (decode_pure b w1) as (r & -> & [->|[->| ->]]); eauto 10.
Qed.

Lemma body_datagram (w : World) t p q s :
  isTimeout None = false ->
  w_inbound w = (t, inl p) :: q ->
  t <= w_now w + defaultDiscoverTime ->
  decodes_to decode size p s ->
  exists w1,
    body w = (Val s, w1) /\
    w_inbound w1 = q /\
    w_now w1 = Z.max (w_now w) t /\
    w_trace w1 =
      w_trace w ++ [EvSetReadDeadline c (w_now w + defaultDiscoverTime);
                    EvReadFrom c size (w_now w1)].
Proof.
  intros Hnil Hq Ht Hs.
  destruct (readOnce_datagram c size w t p q Hq Ht) as (w1 & Hread & Hin & Hnow & Htr).
  exists w1. rewrite (body_reads _ _ _ _ Hread), Hnil. simpl. by rewrite Hs.
Qed.

(** The loop passes over the datagrams that its body does not accept:
    one read for each, nothing sent, nothing closed. *)
Lemma loop_passes :
  isTimeout None = false ->
  forall junk fuel w rest,
    w_inbound w = arrivals junk ++ rest ->
    Forall (fun tp => decodes_to decode size (snd tp) Continue) junk ->
    on_time (w_now w) junk ->
    exists w1 evs,
      forLoop (length junk + fuel) body w = forLoop fuel body w1 /\
      w_inbound w1 = rest /\
      w_now w1 = latest (w_now w) junk /\
      w_trace w1 = w_trace w ++ evs /\
      length (reads evs) = length junk /\
      length (deadlines evs) = length junk /\
      sent evs = [] /\ closed evs = [] /\ bound evs = [].
Proof.
  intros Hnil junk. induction junk as [|[t0 p0] junk IH];
    intros fuel w rest Hq Hskip Htime.
  - exists w, []. simpl. rewrite app_nil_r. by repeat split.
  - simpl in Hq, Htime. destruct Htime as [Ht Htime].
    apply Forall_cons in Hskip as [Hp0 Hskip]. simpl in Hp0.
    destruct (body_datagram w _ _ _ _ Hnil Hq Ht Hp0) as (w1 & Hb & Hin & Hnow & Htr).
    destruct (IH fuel w1 rest Hin Hskip) as
      (w2 & evs & Hrun & Hin2 & Hnow2 & Htr2 & Hr & Hd & Hs & Hc & Hbd).
    { by rewrite Hnow. }
    exists w2, (EvSetReadDeadline c (w_now w + defaultDiscoverTime)
                :: EvReadFrom c size (w_now w1) :: evs).
    split; [|split; [done|split; [|split; [|by repeat split; simpl; try congruence]]]].
    + change (length ((t0, p0) :: junk) + fuel)%nat with (S (length junk + fuel)).
      by rewrite (forLoop_continue _ _ _ _ Hb).
    + by rewrite Hnow2, Hnow.
    + rewrite Htr2, Htr, <- app_assoc. done.
Qed.

Lemma loop_accepts (fuel : nat) (w : World) t p q :
  isTimeout None = false ->
  w_inbound w = (t, inl p) :: q ->
  t <= w_now w + defaultDiscoverTime ->
  decodes_to decode size p (Return (true, None)) ->
  exists w1,
    forLoop (S fuel) body w = (Val (true, None), w1) /\
    w_inbound w1 = q /\
    w_now w1 = Z.max (w_now w) t /\
    w_trace w1 =
      w_trace w ++ [EvSetReadDeadline c (w_now w + defaultDiscoverTime);
                    EvReadFrom c size (w_now w1)].
Proof.
  intros Hnil Hq Ht Hs.
  destruct (body_datagram w _ _ _ _ Hnil Hq Ht Hs) as (w1 & Hb & Hrest).
  exists w1. split; [|done]. by apply forLoop_return.
Qed.

Lemma loop_times_out (fuel : nat) (w : World) :
  isTimeout (Some errDeadlineExceeded) = true ->
  nothing_in_time (w_now w) (w_inbound w) ->
  exists w1,
    forLoop (S fuel) body w = (Val (false, None), w1) /\
    w_inbound w1 = w_inbound w /\
    w_now w1 = Z.max (w_now w) (w_now w + defaultDiscoverTime) /\
    w_trace w1 =
      w_trace w ++ [EvSetReadDeadline c (w_now w + defaultDiscoverTime);
                    EvReadFrom c size (w_now w1)].
Proof.
  intros Hto Hq.
  destruct (readOnce_quiet c size w Hq) as (w1 & Hread & Hrest).
  exists w1. split; [|done]. apply forLoop_return.
  by rewrite (body_reads _ _ _ _ Hread), Hto.
Qed.

(** The loop returns [true] only on a datagram of the inbound traffic that
    its body accepts, and then without an error. *)
Lemma loop_true_only (fuel : nat) :
  forall w e w',
    forLoop fuel body w = (Val (true, e), w') ->
    e = None /\
    exists t p w0,
      In (t, inl p) (w_inbound w) /\
      decode (take size p) w0 = (Val (Return (true, None)), w0).
Proof.
  induction fuel as [|fuel IH]; intros w e w'; [done|].
  destruct (readOnce_run c size w) as (b & err & w1 & Hread & _).
  destruct (readOnce_inv _ _ _ _ _ _ Hread) as (_ & Hinv).
  simpl. unfold mbind, M_bind. rewrite (body_reads _ _ _ _ Hread).
  destruct (isTimeout err); [done|].
  destruct err as [e0|]; simpl; [done|].
  destruct Hinv as [(t & a & Hin & _ & _ & Hb) | (_ & _ & _ & _ & [=])].
  destruct a as [p|e0]; [|done]. injection Hb as ->.
  destruct (decode_pure (take size p) w1) as (r & Hd & [->|[->| ->]]); rewrite Hd.
  - done.
  - intros Hrun. destruct (IH _ _ _ Hrun) as (-> & t' & p' & w0 & Hin' & Hd').
    split; [done|]. exists t', p', w0. split; [|done]. rewrite Hin. by right.
  - intros [= <- <-]. split; [done|]. exists t, p, w1. split; [|done].
    rewrite Hin. by left.
Qed.

(** The loop takes no longer than [defaultDiscoverTime] for each arrival
    and once more. *)
Lemma loop_time_bound (fuel : nat) :
  0 <= defaultDiscoverTime ->
  forall w,
    (length (w_inbound w) < fuel)%nat ->
    w_now w <= w_now (snd (forLoop fuel body w))
      <= w_now w + Z.of_nat (S (length (w_inbound w))) * defaultDiscoverTime.
Proof.
  intros HD. induction fuel as [|fuel IH]; intros w Hlen; [lia|].
  destruct (body_poll w) as (b & err & w1 & r & Hread & Hb & Hr).
  destruct (readOnce_run c size w) as (b' & err' & w1' & Hread' & _ & Hle & Hd & Hq & _).
  rewrite Hread in Hread'. injection Hread' as <- <- <-.
  specialize (Hd HD).
  simpl forLoop. unfold mbind, M_bind. rewrite Hb.
  destruct Hr as [-> | [[v ->] | [-> ->]]]; simpl snd.
  - nia.
  - nia.
  - specialize (Hq eq_refl). specialize (IH w1). nia.
Qed.

Lemma on_time_snoc (now : Z) (junk : list (Z * list byte)) t p :
  on_time now (junk ++ [(t, p)]) <->
  on_time now junk /\ t <= latest now junk + defaultDiscoverTime.
Proof.
  revert now. induction junk as [|[t0 p0] junk IH]; intros now; simpl.
  - unfold latest. simpl. tauto.
  - rewrite IH. unfold latest. simpl. tauto.
Qed.

Lemma latest_snoc (now : Z) (junk : list (Z * list byte)) t p :
  latest now (junk ++ [(t, p)]) = Z.max (latest now junk) t.
Proof. unfold latest. by rewrite map_app, fold_left_app. Qed.

Lemma loop_passes_then_accepts :
  isTimeout None = false ->
  forall junk fuel w t good rest,
    w_inbound w = arrivals (junk ++ [(t, good)]) ++ rest ->
    Forall (fun tp => decodes_to decode size (snd tp) Continue) junk ->
    decodes_to decode size good (Return (true, None)) ->
    on_time (w_now w) (junk ++ [(t, good)]) ->
    (length junk < fuel)%nat ->
    exists w' evs,
      forLoop fuel body w = (Val (true, None), w') /\
      w_inbound w' = rest /\
      w_now w' = latest (w_now w) (junk ++ [(t, good)]) /\
      w_trace w' = w_trace w ++ evs /\
      length (reads evs) = S (length junk) /\
      sent evs = [] /\ closed evs = [].
Proof.
  intros Hnil junk fuel w t good rest Hq Hskip Hgood Htime Hfuel.
  apply on_time_snoc in Htime as [Htime Ht].
  unfold arrivals in Hq. rewrite map_app, <- app_assoc in Hq. simpl in Hq.
  destruct (loop_passes Hnil junk (S (fuel - S (length junk))) w _ Hq Hskip Htime)
    as (w1 & evs & Hrun & Hin & Hnow & Htr & Hr & _ & Hs & Hc & _).
  replace (length junk + S (fuel - S (length junk)))%nat with fuel in Hrun by lia.
  rewrite <- Hnow in Ht.
  destruct (loop_accepts (fuel - S (length junk)) w1 t good rest Hnil Hin Ht Hgood)
    as (w2 & Hrun2 & Hin2 & Hnow2 & Htr2).
  exists w2, (evs ++ [EvSetReadDeadline c (w_now w1 + defaultDiscoverTime);
                     EvReadFrom c size (w_now w2)]).
  split; [by rewrite Hrun|]. split; [done|].
  split; [by rewrite latest_snoc, Hnow2, Hnow|].
  split; [by rewrite Htr2, Htr, <- app_assoc|].
  unfold reads, sent, closed in *. rewrite !omap_app, Hs, Hc, length_app, Hr.
  simpl. repeat split; lia.
Qed.

Lemma loop_passes_then_times_out :
  isTimeout None = false ->
  isTimeout (Some errDeadlineExceeded) = true ->
  0 <= defaultDiscoverTime ->
  forall junk fuel w rest,
    w_inbound w = arrivals junk ++ rest ->
    Forall (fun tp => decodes_to decode size (snd tp) Continue) junk ->
    on_time (w_now w) junk ->
    nothing_in_time (latest (w_now w) junk) rest ->
    (length junk < fuel)%nat ->
    exists w' evs,
      forLoop fuel body w = (Val (false, None), w') /\
      w_inbound w' = rest /\
      w_now w' = latest (w_now w) junk + defaultDiscoverTime /\
      w_trace w' = w_trace w ++ evs /\
      length (reads evs) = S (length junk) /\
      sent evs = [] /\ closed evs = [].
Proof.
  intros Hnil Hto HD junk fuel w rest Hq Hskip Htime Hquiet Hfuel.
  destruct (loop_passes Hnil junk (S (fuel - S (length junk))) w _ Hq Hskip Htime)
    as (w1 & evs & Hrun & Hin & Hnow & Htr & Hr & _ & Hs & Hc & _).
  replace (length junk + S (fuel - S (length junk)))%nat with fuel in Hrun by lia.
  rewrite <- Hnow, <- Hin in Hquiet.
  destruct (loop_times_out (fuel - S (length junk)) w1 Hto Hquiet)
    as (w2 & Hrun2 & Hin2 & Hnow2 & Htr2).
  exists w2, (evs ++ [EvSetReadDeadline c (w_now w1 + defaultDiscoverTime);
                     EvReadFrom c size (w_now w2)]).
  split; [by rewrite Hrun|]. split; [by rewrite Hin2|].
  split; [rewrite Hnow2, Hnow; lia|].
  split; [by rewrite Htr2, Htr, <- app_assoc|].
  unfold reads, sent, closed in *. rewrite !omap_app, Hs, Hc, length_app, Hr.
  simpl. repeat split; lia.
Qed.

(** The loop sends nothing and binds nothing. *)
Lemma loop_only_reads (fuel : nat) :
  forall w,
    (length (w_inbound w) < fuel)%nat ->
    exists evs,
      w_trace (snd (forLoop fuel body w)) = w_trace w ++ evs /\
      sent evs = [] /\
      w_inbound (snd (forLoop fuel body w)) `suffix_of` w_inbound w.
Proof.
  induction fuel as [|fuel IH]; intros w Hlen; [lia|].
  destruct (body_poll w) as (b & err & w1 & r & Hread & Hb & Hr).
  destruct (readOnce_inv _ _ _ _ _ _ Hread) as (Htr & Hinv).
  assert (w_inbound w1 `suffix_of` w_inbound w) as Hsuf.
  { destruct Hinv as [(t & a & -> & _) | (_ & -> & _)]; [by apply suffix_cons_r|done]. }
  simpl forLoop. unfold mbind, M_bind. rewrite Hb.
  destruct Hr as [-> | [[v ->] | [-> ->]]]; simpl snd.
  - eexists. split; [exact Htr|]. done.
  - eexists. split; [exact Htr|]. done.
  - destruct (IH w1) as (evs & Htr' & Hs & Hsuf').
    { destruct Hinv as [(t & a & Hin & _) | (_ & _ & _ & _ & [=])].
      rewrite Hin in Hlen. simpl in Hlen. lia. }
    eexists. split; [rewrite Htr', Htr, <- app_assoc; reflexivity|].
    split; [done|]. by etrans.
Qed.

End Loop.

(** ** What the two bodies do with a datagram *)

Lemma skippedV4_decodes (iface : Interface) (req : DHCPv4) (p : list byte) :
  skippedV4 iface req p ->
  decodes_to (decodeV4 iface req) 1500 p Continue.
Proof.
  unfold skippedV4, decodes_to, decodeV4. intros Hp w.
  destruct (dhcpv4_FromBytes (take 1500 p)) as [[response|] [e|]]; try done.
  simpl. unfold mbind, M_bind. simpl.
  destruct (matchV4 iface req response) eqn:Hm; [|done].
  apply matchV4_accepted in Hm. done.
Qed.

Lemma matchingV4_decodes (iface : Interface) (req : DHCPv4) (p : list byte) :
  matchingV4 iface req p ->
  decodes_to (decodeV4 iface req) 1500 p (Return (true, None)).
Proof.
  unfold decodes_to, decodeV4. intros (response & -> & Hacc) w.
  simpl. unfold mbind, M_bind. simpl.
  apply matchV4_accepted in Hacc. by rewrite Hacc.
Qed.

Lemma decodeV4_true_inv (iface : Interface) (req : DHCPv4) (p : list byte) (w : World) :
  decodeV4 iface req (take 1500 p) w = (Val (Return (true, None)), w) ->
  matchingV4 iface req p.
Proof.
  unfold matchingV4, decodeV4.
  destruct (dhcpv4_FromBytes (take 1500 p)) as [[response|] [e|]]; try done.
  simpl. unfold mbind, M_bind. simpl.
  destruct (matchV4 iface req response) eqn:Hm; [|done].
  intros _. exists response. split; [done|]. by apply matchV4_accepted.
Qed.

Lemma skippedV6_decodes (req : Message MessageOptions) (cid : Duid) (p : list byte) :
  Options_ClientID (msg_Options req) = Some cid ->
  skippedV6 req cid p ->
  decodes_to (decodeV6 req) 4096 p Continue.
Proof.
  unfold skippedV6, decodes_to, decodeV6. intros Hcid Hp w.
  destruct (dhcpv6_FromBytes (take 4096 p)) as [[resp|] [e|]]; try done.
  simpl. unfold mbind at 1, M_bind at 1. simpl.
  destruct (DHCPv6_GetInnerMessage resp) as [[msg|] [e|]]; try done.
  simpl. unfold mbind at 1, M_bind at 1. simpl.
  unfold mbind at 1, M_bind at 1. rewrite Hcid, matchV6_some.
  destruct (matchV6_with req cid resp msg) eqn:Hm; [|done].
  apply matchV6_accepted in Hm. done.
Qed.

Lemma matchingV6_decodes (req : Message MessageOptions) (cid : Duid) (p : list byte) :
  Options_ClientID (msg_Options req) = Some cid ->
  matchingV6 req cid p ->
  decodes_to (decodeV6 req) 4096 p (Return (true, None)).
Proof.
  unfold decodes_to, decodeV6. intros Hcid (resp & msg & -> & Hinner & Hacc) w.
  simpl. unfold mbind at 1, M_bind at 1. simpl. rewrite Hinner.
  simpl. unfold mbind at 1, M_bind at 1. simpl.
  unfold mbind at 1, M_bind at 1. rewrite Hcid, matchV6_some.
  apply matchV6_accepted in Hacc. by rewrite Hacc.
Qed.

Lemma decodeV6_true_inv (req : Message MessageOptions) (p : list byte) (w : World) :
  decodeV6 req (take 4096 p) w = (Val (Return (true, None)), w) ->
  exists cid,
    Options_ClientID (msg_Options req) = Some cid /\ matchingV6 req cid p.
Proof.
  unfold matchingV6, decodeV6.
  destruct (dhcpv6_FromBytes (take 4096 p)) as [[resp|] [e|]] eqn:Hdec; try done.
  simpl. unfold mbind at 1, M_bind at 1. simpl.
  destruct (DHCPv6_GetInnerMessage resp) as [[msg|] [e|]] eqn:Hinner; try done.
  simpl. unfold mbind at 1, M_bind at 1. simpl.
  unfold mbind at 1, M_bind at 1.
  destruct (Options_ClientID (msg_Options req)) as [cid|] eqn:Hcid.
  - rewrite matchV6_some.
    destruct (matchV6_with req cid resp msg) eqn:Hm; [|done].
    intros _. exists cid. split; [done|]. exists resp, msg.
    split; [done|]. split; [done|]. by apply matchV6_accepted.
  - unfold matchV6. destruct (_ && _ && _); [|done].
    by destruct (Options_ClientID (msg_Options msg)).
Qed.

(** ** The ways through a call *)

Ltac run_calls :=
  unfold mbind, M_bind, net_InterfaceByName, runtime_GOOS, os_Hostname,
    dhcpv4_NewDiscovery, dhcpv6_NewSolicit, net_ResolveUDPAddr,
    nclient4_NewRawUDPConn, nclient6_NewIPv6UDPConn, Conn_WriteTo; simpl.

(** A call that does not get as far as its bind fails and leaves the host
    as it was. *)
Lemma V4_unready (fuel : nat) (ifaceName : string) (w : World) :
  (exists r, CheckIfOtherDHCPServersPresentV4 fuel ifaceName w = (r, w) /\ failed r) \/
  (exists iface req dstAddr, ReadyV4 w ifaceName iface req dstAddr).
Proof.
  unfold CheckIfOtherDHCPServersPresentV4, failed. run_calls.
  destruct (w_InterfaceByName w ifaceName) as [[iface|] [e|]] eqn:Hif; simpl;
    try (left; eauto 10; fail).
  destruct (getIfaceIPv4 iface) as [|srcIP rest] eqn:Hip; [left; eauto 10|].
  destruct (String.eqb (w_GOOS w) "darwin") eqn:Hgoos; [left; eauto 10|].
  destruct (w_Hostname w) as [hostname herr] eqn:Hh. simpl.
  destruct (w_NewDiscovery w _) as [[req0|] [e|]] eqn:Hreq; simpl;
    try (left; eauto 10; fail).
  destruct (w_ResolveUDPAddr w "udp4" (net_JoinHostPort _ _))
    as [[udpAddr|] [e|]] eqn:Hres; simpl; try (left; eauto 10; fail).
  destruct (IP_Equal _ _) eqn:Heq; simpl; [|left; eauto 10].
  destruct (w_ResolveUDPAddr w "udp4" "255.255.255.255:67") as [dstAddr [e|]] eqn:Hdst;
    simpl; [left; eauto 10|].
  right. eexists iface, _, dstAddr. constructor; try done.
  - eauto 10.
  - exists req0. split; [done|]. rewrite Hh. reflexivity.
Qed.

Lemma V4_ready (fuel : nat) (ifaceName : string) (w : World) iface req dstAddr :
  ReadyV4 w ifaceName iface req dstAddr ->
  CheckIfOtherDHCPServersPresentV4 fuel ifaceName w =
    match w_NewRawUDPConn w ifaceName 68 with
    | (c, Some e) =>
        (Val (false, Some (ErrWrap "couldn't listen on :68: %w" e)),
         record (EvBind ifaceName 68 c (Some e)) w)
    | (None, None) => (Panic, record (EvBind ifaceName 68 None None) w)
    | (Some c, None) =>
        match w_WriteTo w c (DHCPv4_ToBytes req) dstAddr with
        | (_, Some e) =>
            (Val (false, Some (ErrWrap "couldn't send a packet to %s: %w" e)),
             record (EvClose c) (at_loop w ifaceName 68 c (DHCPv4_ToBytes req) dstAddr))
        | (_, None) =>
            defer (Conn_Close c) (forLoop fuel (recvV4 iface req c))
                  (at_loop w ifaceName 68 c (DHCPv4_ToBytes req) dstAddr)
        end
    end.
Proof.
  intros [Hif Hgoos (srcIP & rest & udpAddr & Hip & Hres & Heq) (req0 & Hreq & ->) Hdst].
  unfold CheckIfOtherDHCPServersPresentV4. run_calls.
  rewrite Hif. simpl. rewrite Hip. rewrite Hgoos.
  destruct (w_Hostname w) as [hostname herr] eqn:Hh. simpl.
  rewrite Hreq. simpl. rewrite Hres. simpl. rewrite Heq. simpl.
  rewrite Hdst. simpl.
  destruct (w_NewRawUDPConn w ifaceName 68) as [[c|] [e|]]; simpl; try done.
  unfold defer, at_loop. simpl.
  by destruct (w_WriteTo w c _ dstAddr) as [n [e|]].
Qed.

Lemma V6_unready (fuel : nat) (ifaceName : string) (w : World) :
  (exists r, CheckIfOtherDHCPServersPresentV6 fuel ifaceName w = (r, w) /\ failed r) \/
  (exists iface req dstAddr, ReadyV6 w ifaceName iface req dstAddr).
Proof.
  unfold CheckIfOtherDHCPServersPresentV6, failed. run_calls.
  destruct (w_InterfaceByName w ifaceName) as [[iface|] [e|]] eqn:Hif; simpl;
    try (left; eauto 10; fail).
  destruct (getIfaceIPv6 iface) as [|srcIP rest] eqn:Hip; [left; eauto 10|].
  destruct (w_NewSolicit w _) as [req [e|]] eqn:Hreq; simpl; [left; eauto 10|].
  destruct (w_ResolveUDPAddr w "udp6" (net_JoinHostPort _ _))
    as [[udpAddr|] [e|]] eqn:Hres; simpl; try (left; eauto 10; fail).
  destruct (IP_Equal _ _) eqn:Heq; simpl; [|left; eauto 10].
  destruct (w_ResolveUDPAddr w "udp6" "[ff02::1:2]:547") as [dstAddr [e|]] eqn:Hdst;
    simpl; [left; eauto 10|].
  right. exists iface, req, dstAddr. constructor; try done. eauto 10.
Qed.

Lemma V6_ready (fuel : nat) (ifaceName : string) (w : World) iface req dstAddr :
  ReadyV6 w ifaceName iface req dstAddr ->
  CheckIfOtherDHCPServersPresentV6 fuel ifaceName w =
    match w_NewIPv6UDPConn w ifaceName dhcpv6_DefaultClientPort with
    | (c, Some e) =>
        (Val (false, Some (ErrWrap "dhcpv6: Couldn't listen on :546: %w" e)),
         record (EvBind ifaceName dhcpv6_DefaultClientPort c (Some e)) w)
    | (None, None) =>
        (Panic, record (EvBind ifaceName dhcpv6_DefaultClientPort None None) w)
    | (Some c, None) =>
        match req with
        | None =>
            (Panic,
             record (EvClose c)
               (record (EvBind ifaceName dhcpv6_DefaultClientPort (Some c) None) w))
        | Some req =>
            match w_WriteTo w c (Message_ToBytes req) dstAddr with
            | (_, Some e) =>
                (Val (false,
                      Some (ErrWrap "dhcpv6: Couldn't send a packet to %s: %w" e)),
                 record (EvClose c)
                   (at_loop w ifaceName dhcpv6_DefaultClientPort c
                      (Message_ToBytes req) dstAddr))
            | (_, None) =>
                defer (Conn_Close c) (forLoop fuel (recvV6 req c))
                      (at_loop w ifaceName dhcpv6_DefaultClientPort c
                         (Message_ToBytes req) dstAddr)
            end
        end
    end.
Proof.
  intros [Hif (srcIP & rest & udpAddr & Hip & Hres & Heq) Hreq Hdst].
  unfold CheckIfOtherDHCPServersPresentV6. run_calls.
  rewrite Hif. simpl. rewrite Hip, Hreq. simpl.
  rewrite Hres. simpl. rewrite Heq. simpl. rewrite Hdst. simpl.
  destruct (w_NewIPv6UDPConn w ifaceName dhcpv6_DefaultClientPort) as [[c|] [e|]];
    simpl; try done.
  unfold defer, at_loop. simpl.
  destruct req as [req|]; simpl; [|done].
  by destruct (w_WriteTo w c _ dstAddr) as [n [e|]].
Qed.

Lemma events_app (w w' : World) (evs : list Event) :
  w_trace w' = w_trace w ++ evs -> events w w' = evs.
Proof. intros Htr. unfold events. rewrite Htr. apply drop_app_length. Qed.

Lemma events_same (w : World) : events w w = [].
Proof. apply events_app. by rewrite app_nil_r. Qed.

Lemma SetupV4_of_ready (w : World) (ifaceName : string) iface req dstAddr c n :
  ReadyV4 w ifaceName iface req dstAddr ->
  w_NewRawUDPConn w ifaceName 68 = (Some c, None) ->
  w_WriteTo w c (DHCPv4_ToBytes req) dstAddr = (n, None) ->
  SetupV4 w ifaceName iface req dstAddr c.
Proof. intros [] Hbind Hsend. constructor; try done. by rewrite Hsend. Qed.

Lemma SetupV6_of_ready (w : World) (ifaceName : string) iface req dstAddr c n :
  ReadyV6 w ifaceName iface (Some req) dstAddr ->
  w_NewIPv6UDPConn w ifaceName dhcpv6_DefaultClientPort = (Some c, None) ->
  w_WriteTo w c (Message_ToBytes req) dstAddr = (n, None) ->
  SetupV6 w ifaceName iface req dstAddr c.
Proof. intros [] Hbind Hsend. constructor; try done. by rewrite Hsend. Qed.

(** ** Further properties *)

(** X1.  The v4 probe reports a server only when one answered: if it
    returns [true], the error is nil, the host let it reach its receive
    loop, and among the datagrams that were to arrive there is one that
    decodes (from its first 1500 bytes) to a response that meets the five
    conditions of acceptance for the interface and the request sent. *)
Theorem V4_true_only_on_match (fuel : nat) (ifaceName : string) (w : World) e :
  fst (CheckIfOtherDHCPServersPresentV4 fuel ifaceName w) = Val (true, e) ->
  e = None /\
  exists iface req dstAddr c t p,
    SetupV4 w ifaceName iface req dstAddr c /\
    In (t, inl p) (w_inbound w) /\
    matchingV4 iface req p.
Proof.
  destruct (V4_unready fuel ifaceName w) as [(r & -> & Hf) | (iface & req & dst & Hready)].
  { simpl. intros ->. by destruct Hf as [[=] | [e' [=]]]. }
  rewrite (V4_ready _ _ _ _ _ _ Hready).
  destruct (w_NewRawUDPConn w ifaceName 68) as [[c|] [e0|]] eqn:Hbind; simpl; try done.
  destruct (w_WriteTo w c (DHCPv4_ToBytes req) dst) as [n [e0|]] eqn:Hsend; simpl;
    [done|].
  unfold defer.
  destruct (forLoop fuel (recvV4 iface req c) _) as [r w'] eqn:Hloop.
  destruct r as [[b e1]| | |]; simpl; try done. intros [= -> ->].
  apply (loop_true_only c 1500 (decodeV4 iface req) (recvV4 iface req c)
           (recvV4_readOnce iface req c) (decodeV4_run iface req)) in Hloop
    as (-> & t & p & w0 & Hin & Hd).
  split; [done|]. exists iface, req, dst, c, t, p.
  split; [by eapply SetupV4_of_ready|]. split; [done|].
  by eapply decodeV4_true_inv.
Qed.

(** X2.  The v6 probe reports a server only when one answered: if it
    returns [true], the error is nil, the host let it reach its receive
    loop, the request carries a client identifier, and among the datagrams
    that were to arrive there is one that decodes (from its first 4096
    bytes) to a response that meets the four conditions of acceptance. *)
Theorem V6_true_only_on_match (fuel : nat) (ifaceName : string) (w : World) e :
  fst (CheckIfOtherDHCPServersPresentV6 fuel ifaceName w) = Val (true, e) ->
  e = None /\
  exists iface req dstAddr c cid t p,
    SetupV6 w ifaceName iface req dstAddr c /\
    Options_ClientID (msg_Options req) = Some cid /\
    In (t, inl p) (w_inbound w) /\
    matchingV6 req cid p.
Proof.
  destruct (V6_unready fuel ifaceName w) as [(r & -> & Hf) | (iface & req & dst & Hready)].
  { simpl. intros ->. by destruct Hf as [[=] | [e' [=]]]. }
  rewrite (V6_ready _ _ _ _ _ _ Hready).
  destruct (w_NewIPv6UDPConn w ifaceName dhcpv6_DefaultClientPort)
    as [[c|] [e0|]] eqn:Hbind; simpl; try done.
  destruct req as [req|]; [|done].
  destruct (w_WriteTo w c (Message_ToBytes req) dst) as [n [e0|]] eqn:Hsend; simpl;
    [done|].
  unfold defer.
  destruct (forLoop fuel (recvV6 req c) _) as [r w'] eqn:Hloop.
  destruct r as [[b e1]| | |]; simpl; try done. intros [= -> ->].
  apply (loop_true_only c 4096 (decodeV6 req) (recvV6 req c)
           (recvV6_readOnce req c) (decodeV6_run req)) in Hloop
    as (-> & t & p & w0 & Hin & Hd).
  apply decodeV6_true_inv in Hd as (cid & Hcid & Hm).
  split; [done|]. exists iface, req, dst, c, cid, t, p.
  split; [by eapply SetupV6_of_ready|]. done.
Qed.

(** X3.  Neither probe touches an endpoint before its preconditions hold:
    a call that performs any endpoint operation has found the interface
    and an address of the family on it, runs on a platform that is
    supported (v4), has built its request, and has resolved both the
    destination and the source address, the latter to the first address of
    the interface. *)
Theorem probes_bind_only_when_ready
    (fuel4 fuel6 : nat) (name4 name6 : string) (w4 w6 : World) :
  (events w4 (snd (CheckIfOtherDHCPServersPresentV4 fuel4 name4 w4)) <> [] ->
   exists iface req dstAddr, ReadyV4 w4 name4 iface req dstAddr) /\
  (events w6 (snd (CheckIfOtherDHCPServersPresentV6 fuel6 name6 w6)) <> [] ->
   exists iface req dstAddr, ReadyV6 w6 name6 iface req dstAddr).
Proof.
  split.
  - destruct (V4_unready fuel4 name4 w4) as [(r & -> & _) | Hready]; [|done].
    simpl. by rewrite events_same.
  - destruct (V6_unready fuel6 name6 w6) as [(r & -> & _) | Hready]; [|done].
    simpl. by rewrite events_same.
Qed.

Lemma defer_close_now {A : Type} (c : Conn) (body : M A) (w : World) :
  w_now (snd (defer (Conn_Close c) body w)) = w_now (snd (body w)).
Proof. unfold defer. by destruct (body w) as [[] ?]. Qed.

(** X4.  A call of either probe lasts no longer than
    [defaultDiscoverTime] for each datagram that is to arrive and once
    more, and the clock never goes back. *)
Theorem probes_time_bound
    (fuel4 fuel6 : nat) (name4 name6 : string) (w4 w6 : World) :
  0 <= defaultDiscoverTime ->
  (length (w_inbound w4) < fuel4)%nat ->
  (length (w_inbound w6) < fuel6)%nat ->
  w_now w4 <= w_now (snd (CheckIfOtherDHCPServersPresentV4 fuel4 name4 w4))
    <= w_now w4 + Z.of_nat (S (length (w_inbound w4))) * defaultDiscoverTime /\
  w_now w6 <= w_now (snd (CheckIfOtherDHCPServersPresentV6 fuel6 name6 w6))
    <= w_now w6 + Z.of_nat (S (length (w_inbound w6))) * defaultDiscoverTime.
Proof.
  intros HD Hf4 Hf6. split.
  - destruct (V4_unready fuel4 name4 w4) as [(r & -> & _) | (iface & req & dst & Hready)].
    { simpl. nia. }
    rewrite (V4_ready _ _ _ _ _ _ Hready).
    destruct (w_NewRawUDPConn w4 name4 68) as [[c|] [e0|]]; simpl; try nia.
    destruct (w_WriteTo w4 c (DHCPv4_ToBytes req) dst) as [n [e0|]]; simpl; [nia|].
    rewrite defer_close_now.
    apply (loop_time_bound c 1500 (decodeV4 iface req) (recvV4 iface req c)
             (recvV4_readOnce iface req c) (decodeV4_run iface req) fuel4 HD
             (at_loop w4 name4 68 c (DHCPv4_ToBytes req) dst)).
    done.
  - destruct (V6_unready fuel6 name6 w6) as [(r & -> & _) | (iface & req & dst & Hready)].
    { simpl. nia. }
    rewrite (V6_ready _ _ _ _ _ _ Hready).
    destruct (w_NewIPv6UDPConn w6 name6 dhcpv6_DefaultClientPort) as [[c|] [e0|]];
      simpl; try nia.
    destruct req as [req|]; simpl; [|nia].
    destruct (w_WriteTo w6 c (Message_ToBytes req) dst) as [n [e0|]]; simpl; [nia|].
    rewrite defer_close_now.
    apply (loop_time_bound c 4096 (decodeV6 req) (recvV6 req c)
             (recvV6_readOnce req c) (decodeV6_run req) fuel6 HD
             (at_loop w6 name6 dhcpv6_DefaultClientPort c (Message_ToBytes req) dst)).
    done.
Qed.

Lemma defer_close_trace (c : Conn) (size : nat) (body : M (Step (bool * option error)))
    (fuel : nat) (w0 w1 : World) (pre : list Event) :
  poll_body c size body ->
  0 <= defaultDiscoverTime ->
  (length (w_inbound w1) < fuel)%nat ->
  w_trace w1 = w_trace w0 ++ pre ->
  exists evs t,
    polls c size (w_now w1) evs t /\
    events w0 (snd (defer (Conn_Close c) (forLoop fuel body) w1))
      = pre ++ evs ++ [EvClose c].
Proof.
  intros Hbody HD Hfuel Hpre.
  destruct (loop_run c size body Hbody fuel w1 Hfuel)
    as (r & w' & evs & Hrun & Hex & Htr & _ & _ & Hp).
  exists evs, (w_now w'). split; [by apply Hp|].
  unfold defer. rewrite Hrun. apply events_app.
  destruct Hex as [-> | [v ->]]; simpl; by rewrite Htr, Hpre, <- !app_assoc.
Qed.

(** X5.  What a call of a probe does to endpoints has one of these forms:
    nothing; a bind that fails; a bind, one send that fails, the close;
    a bind, one send, then rounds of "set the read deadline, read" and the
    close, all on the endpoint bound (port 68 and a buffer of 1500 bytes
    for v4, port 546 and 4096 bytes for v6).  The v6 probe has one more:
    a bind and the close, when the request is nil.  So nothing is read
    before the one datagram is sent, and nothing is sent twice. *)
Theorem probes_trace_shape
    (fuel4 fuel6 : nat) (name4 name6 : string) (w4 w6 : World) :
  0 <= defaultDiscoverTime ->
  (length (w_inbound w4) < fuel4)%nat ->
  (length (w_inbound w6) < fuel6)%nat ->
  probe_trace name4 68 1500 (w_now w4)
    (events w4 (snd (CheckIfOtherDHCPServersPresentV4 fuel4 name4 w4))) /\
  (probe_trace name6 dhcpv6_DefaultClientPort 4096 (w_now w6)
     (events w6 (snd (CheckIfOtherDHCPServersPresentV6 fuel6 name6 w6))) \/
   exists c,
     events w6 (snd (CheckIfOtherDHCPServersPresentV6 fuel6 name6 w6))
       = [EvBind name6 dhcpv6_DefaultClientPort (Some c) None; EvClose c]).
Proof.
  intros HD Hf4 Hf6. split.
  - destruct (V4_unready fuel4 name4 w4) as [(r & -> & _) | (iface & req & dst & Hready)].
    { simpl. rewrite events_same. constructor. }
    rewrite (V4_ready _ _ _ _ _ _ Hready).
    destruct (w_NewRawUDPConn w4 name4 68) as [[c|] [e0|]]; simpl.
    + rewrite (events_app _ _ [EvBind name4 68 (Some c) (Some e0)]) by done.
      constructor. by left.
    + destruct (w_WriteTo w4 c (DHCPv4_ToBytes req) dst) as [n [e0|]]; simpl.
      * rewrite (events_app _ _ [EvBind name4 68 (Some c) None;
                                 EvWriteTo c (DHCPv4_ToBytes req) dst; EvClose c]).
        { constructor. }
        simpl. by rewrite <- !app_assoc.
      * destruct (defer_close_trace c 1500 (recvV4 iface req c) fuel4 w4
                    (at_loop w4 name4 68 c (DHCPv4_ToBytes req) dst)
                    [EvBind name4 68 (Some c) None; EvWriteTo c (DHCPv4_ToBytes req) dst])
          as (evs & t & Hp & ->); try done.
        { apply recvV4_poll. }
        { simpl. by rewrite <- !app_assoc. }
        simpl. by eapply trace_polled.
    + rewrite (events_app _ _ [EvBind name4 68 None (Some e0)]) by done.
      constructor. by left.
    + rewrite (events_app _ _ [EvBind name4 68 None None]) by done.
      constructor. by right.
  - destruct (V6_unready fuel6 name6 w6) as [(r & -> & _) | (iface & req & dst & Hready)].
    { left. simpl. rewrite events_same. constructor. }
    rewrite (V6_ready _ _ _ _ _ _ Hready).
    destruct (w_NewIPv6UDPConn w6 name6 dhcpv6_DefaultClientPort) as [[c|] [e0|]]; simpl.
    + left.
      rewrite (events_app _ _ [EvBind name6 dhcpv6_DefaultClientPort (Some c) (Some e0)])
        by done.
      constructor. by left.
    + destruct req as [req|]; simpl.
      2:{ right. exists c. apply events_app. simpl. by rewrite <- !app_assoc. }
      left.
      destruct (w_WriteTo w6 c (Message_ToBytes req) dst) as [n [e0|]]; simpl.
      * rewrite (events_app _ _ [EvBind name6 dhcpv6_DefaultClientPort (Some c) None;
                                 EvWriteTo c (Message_ToBytes req) dst; EvClose c]).
        { constructor. }
        simpl. by rewrite <- !app_assoc.
      * destruct (defer_close_trace c 4096 (recvV6 req c) fuel6 w6
                    (at_loop w6 name6 dhcpv6_DefaultClientPort c (Message_ToBytes req) dst)
                    [EvBind name6 dhcpv6_DefaultClientPort (Some c) None;
                     EvWriteTo c (Message_ToBytes req) dst])
          as (evs & t & Hp & ->); try done.
        { apply recvV6_poll. }
        { simpl. by rewrite <- !app_assoc. }
        simpl. by eapply trace_polled.
    + left.
      rewrite (events_app _ _ [EvBind name6 dhcpv6_DefaultClientPort None (Some e0)])
        by done.
      constructor. by left.
    + left.
      rewrite (events_app _ _ [EvBind name6 dhcpv6_DefaultClientPort None None]) by done.
      constructor. by right.
Qed.

Lemma skippedV4_Forall (iface : Interface) (req : DHCPv4) (junk : list (Z * list byte)) :
  Forall (fun tp => skippedV4 iface req (snd tp)) junk ->
  Forall (fun tp => decodes_to (decodeV4 iface req) 1500 (snd tp) Continue) junk.
Proof.
  intros H. eapply Forall_impl; [exact H|]. intros tp. apply skippedV4_decodes.
Qed.

Lemma skippedV6_Forall (req : Message MessageOptions) (cid : Duid)
    (junk : list (Z * list byte)) :
  Options_ClientID (msg_Options req) = Some cid ->
  Forall (fun tp => skippedV6 req cid (snd tp)) junk ->
  Forall (fun tp => decodes_to (decodeV6 req) 4096 (snd tp) Continue) junk.
Proof.
  intros Hcid H. eapply Forall_impl; [exact H|]. intros tp. by apply skippedV6_decodes.
Qed.

(** X6.  When, after any number of datagrams that the v4 loop passes
    over, nothing more arrives before the deadline of the read that waits
    (a matching reply that comes too late included), the v4 probe returns
    [(false, nil)], exactly one [defaultDiscoverTime] after its last read
    began; it has made one read more than it passed datagrams over, and what
    came too late is left unread.  On a quiet network that is one read and
    one [defaultDiscoverTime]. *)
Theorem V4_times_out_after_skips
    (fuel : nat) (ifaceName : string) (w : World) iface req dstAddr c
    (junk : list (Z * list byte)) rest :
  isTimeout None = false ->
  isTimeout (Some errDeadlineExceeded) = true ->
  0 <= defaultDiscoverTime ->
  SetupV4 w ifaceName iface req dstAddr c ->
  w_inbound w = arrivals junk ++ rest ->
  Forall (fun tp => skippedV4 iface req (snd tp)) junk ->
  on_time (w_now w) junk ->
  nothing_in_time (latest (w_now w) junk) rest ->
  (length junk < fuel)%nat ->
  exists w',
    CheckIfOtherDHCPServersPresentV4 fuel ifaceName w = (Val (false, None), w') /\
    w_inbound w' = rest /\
    w_now w' = latest (w_now w) junk + defaultDiscoverTime /\
    length (reads (events w w')) = S (length junk).
Proof.
  intros Hnil Hto HD Hs Hq Hskip Htime Hquiet Hfuel.
  rewrite (V4_after_setup _ _ _ _ _ _ _ Hs). unfold defer.
  destruct (loop_passes_then_times_out c 1500 (decodeV4 iface req) (recvV4 iface req c)
              (recvV4_readOnce iface req c) Hnil Hto HD junk fuel
              (at_loop w ifaceName 68 c (DHCPv4_ToBytes req) dstAddr) rest)
    as (w' & evs & -> & Hin & Hnow & Htr & Hr & _); try done.
  { by apply skippedV4_Forall. }
  eexists. split; [reflexivity|]. simpl. repeat split; try done.
  rewrite (events_app w _ (EvBind ifaceName 68 (Some c) None
                           :: EvWriteTo c (DHCPv4_ToBytes req) dstAddr
                           :: evs ++ [EvClose c])).
  - unfold reads in *. simpl. rewrite omap_app, length_app, Hr. simpl. lia.
  - simpl. rewrite Htr. simpl. by rewrite <- !app_assoc.
Qed.

(** X7.  The same for the v6 probe, with a request that carries a client
    identifier. *)
Theorem V6_times_out_after_skips
    (fuel : nat) (ifaceName : string) (w : World) iface req dstAddr c cid
    (junk : list (Z * list byte)) rest :
  isTimeout None = false ->
  isTimeout (Some errDeadlineExceeded) = true ->
  0 <= defaultDiscoverTime ->
  SetupV6 w ifaceName iface req dstAddr c ->
  Options_ClientID (msg_Options req) = Some cid ->
  w_inbound w = arrivals junk ++ rest ->
  Forall (fun tp => skippedV6 req cid (snd tp)) junk ->
  on_time (w_now w) junk ->
  nothing_in_time (latest (w_now w) junk) rest ->
  (length junk < fuel)%nat ->
  exists w',
    CheckIfOtherDHCPServersPresentV6 fuel ifaceName w = (Val (false, None), w') /\
    w_inbound w' = rest /\
    w_now w' = latest (w_now w) junk + defaultDiscoverTime /\
    length (reads (events w w')) = S (length junk).
Proof.
  intros Hnil Hto HD Hs Hcid Hq Hskip Htime Hquiet Hfuel.
  rewrite (V6_after_setup _ _ _ _ _ _ _ Hs). unfold defer.
  destruct (loop_passes_then_times_out c 4096 (decodeV6 req) (recvV6 req c)
              (recvV6_readOnce req c) Hnil Hto HD junk fuel
              (at_loop w ifaceName dhcpv6_DefaultClientPort c (Message_ToBytes req) dstAddr)
              rest)
    as (w' & evs & -> & Hin & Hnow & Htr & Hr & _); try done.
  { by eapply skippedV6_Forall. }
  eexists. split; [reflexivity|]. simpl. repeat split; try done.
  rewrite (events_app w _ (EvBind ifaceName dhcpv6_DefaultClientPort (Some c) None
                           :: EvWriteTo c (Message_ToBytes req) dstAddr
                           :: evs ++ [EvClose c])).
  - unfold reads in *. simpl. rewrite omap_app, length_app, Hr. simpl. lia.
  - simpl. rewrite Htr. simpl. by rewrite <- !app_assoc.
Qed.

(** X8.  When a matching reply comes after any number of datagrams that
    the v4 loop passes over, each in time, the v4 probe returns
    [(true, nil)] at once: at the time the reply arrives (or at the time of
    the call, if all had arrived before), without waiting for a deadline,
    after one read for each datagram up to the reply; what arrives later is
    left unread. *)
Theorem V4_accepts_promptly
    (fuel : nat) (ifaceName : string) (w : World) iface req dstAddr c
    (junk : list (Z * list byte)) t good rest :
  isTimeout None = false ->
  SetupV4 w ifaceName iface req dstAddr c ->
  w_inbound w = arrivals (junk ++ [(t, good)]) ++ rest ->
  Forall (fun tp => skippedV4 iface req (snd tp)) junk ->
  matchingV4 iface req good ->
  on_time (w_now w) (junk ++ [(t, good)]) ->
  (length junk < fuel)%nat ->
  exists w',
    CheckIfOtherDHCPServersPresentV4 fuel ifaceName w = (Val (true, None), w') /\
    w_inbound w' = rest /\
    w_now w' = latest (w_now w) (junk ++ [(t, good)]) /\
    length (reads (events w w')) = S (length junk).
Proof.
  intros Hnil Hs Hq Hskip Hgood Htime Hfuel.
  rewrite (V4_after_setup _ _ _ _ _ _ _ Hs). unfold defer.
  destruct (loop_passes_then_accepts c 1500 (decodeV4 iface req) (recvV4 iface req c)
              (recvV4_readOnce iface req c) Hnil junk fuel
              (at_loop w ifaceName 68 c (DHCPv4_ToBytes req) dstAddr) t good rest)
    as (w' & evs & -> & Hin & Hnow & Htr & Hr & _); try done.
  { by apply skippedV4_Forall. }
  { by apply matchingV4_decodes. }
  eexists. split; [reflexivity|]. simpl. repeat split; try done.
  rewrite (events_app w _ (EvBind ifaceName 68 (Some c) None
                           :: EvWriteTo c (DHCPv4_ToBytes req) dstAddr
                           :: evs ++ [EvClose c])).
  - unfold reads in *. simpl. rewrite omap_app, length_app, Hr. simpl. lia.
  - simpl. rewrite Htr. simpl. by rewrite <- !app_assoc.
Qed.

(** X9.  The same for the v6 probe, with a request that carries a client
    identifier. *)
Theorem V6_accepts_promptly
    (fuel : nat) (ifaceName : string) (w : World) iface req dstAddr c cid
    (junk : list (Z * list byte)) t good rest :
  isTimeout None = false ->
  SetupV6 w ifaceName iface req dstAddr c ->
  Options_ClientID (msg_Options req) = Some cid ->
  w_inbound w = arrivals (junk ++ [(t, good)]) ++ rest ->
  Forall (fun tp => skippedV6 req cid (snd tp)) junk ->
  matchingV6 req cid good ->
  on_time (w_now w) (junk ++ [(t, good)]) ->
  (length junk < fuel)%nat ->
  exists w',
    CheckIfOtherDHCPServersPresentV6 fuel ifaceName w = (Val (true, None), w') /\
    w_inbound w' = rest /\
    w_now w' = latest (w_now w) (junk ++ [(t, good)]) /\
    length (reads (events w w')) = S (length junk).
Proof.
  intros Hnil Hs Hcid Hq Hskip Hgood Htime Hfuel.
  rewrite (V6_after_setup _ _ _ _ _ _ _ Hs). unfold defer.
  destruct (loop_passes_then_accepts c 4096 (decodeV6 req) (recvV6 req c)
              (recvV6_readOnce req c) Hnil junk fuel
              (at_loop w ifaceName dhcpv6_DefaultClientPort c (Message_ToBytes req) dstAddr)
              t good rest)
    as (w' & evs & -> & Hin & Hnow & Htr & Hr & _); try done.
  { by eapply skippedV6_Forall. }
  { by eapply matchingV6_decodes. }
  eexists. split; [reflexivity|]. simpl. repeat split; try done.
  rewrite (events_app w _ (EvBind ifaceName dhcpv6_DefaultClientPort (Some c) None
                           :: EvWriteTo c (Message_ToBytes req) dstAddr
                           :: evs ++ [EvClose c])).
  - unfold reads in *. simpl. rewrite omap_app, length_app, Hr. simpl. lia.
  - simpl. rewrite Htr. simpl. by rewrite <- !app_assoc.
Qed.

(** X10.  When the bind fails, each probe returns [false] with the error
    of the bind wrapped, and the bind is all it has done to endpoints:
    nothing is sent, nothing is read, and nothing is closed, not even an
    endpoint that the failed bind gave back with its error. *)
Theorem probes_bind_error
    (fuel4 fuel6 : nat) (name4 name6 : string) (w4 w6 : World)
    iface4 req4 dst4 c4 e4 iface6 req6 dst6 c6 e6 :
  ReadyV4 w4 name4 iface4 req4 dst4 ->
  w_NewRawUDPConn w4 name4 68 = (c4, Some e4) ->
  ReadyV6 w6 name6 iface6 req6 dst6 ->
  w_NewIPv6UDPConn w6 name6 dhcpv6_DefaultClientPort = (c6, Some e6) ->
  CheckIfOtherDHCPServersPresentV4 fuel4 name4 w4 =
    (Val (false, Some (ErrWrap "couldn't listen on :68: %w" e4)),
     record (EvBind name4 68 c4 (Some e4)) w4) /\
  CheckIfOtherDHCPServersPresentV6 fuel6 name6 w6 =
    (Val (false, Some (ErrWrap "dhcpv6: Couldn't listen on :546: %w" e6)),
     record (EvBind name6 dhcpv6_DefaultClientPort c6 (Some e6)) w6).
Proof.
  intros Hr4 Hb4 Hr6 Hb6. split.
  - rewrite (V4_ready _ _ _ _ _ _ Hr4), Hb4. by destruct c4.
  - rewrite (V6_ready _ _ _ _ _ _ Hr6), Hb6. by destruct c6.
Qed.

(** X11.  When the send fails, each probe returns [false] with the error
    of the send wrapped; it has bound, tried the send and closed the
    endpoint, and has not read. *)
Theorem probes_send_error
    (fuel4 fuel6 : nat) (name4 name6 : string) (w4 w6 : World)
    iface4 req4 dst4 c4 n4 e4 iface6 req6 dst6 c6 n6 e6 :
  ReadyV4 w4 name4 iface4 req4 dst4 ->
  w_NewRawUDPConn w4 name4 68 = (Some c4, None) ->
  w_WriteTo w4 c4 (DHCPv4_ToBytes req4) dst4 = (n4, Some e4) ->
  ReadyV6 w6 name6 iface6 (Some req6) dst6 ->
  w_NewIPv6UDPConn w6 name6 dhcpv6_DefaultClientPort = (Some c6, None) ->
  w_WriteTo w6 c6 (Message_ToBytes req6) dst6 = (n6, Some e6) ->
  (exists w',
     CheckIfOtherDHCPServersPresentV4 fuel4 name4 w4 =
       (Val (false, Some (ErrWrap "couldn't send a packet to %s: %w" e4)), w') /\
     events w4 w' = [EvBind name4 68 (Some c4) None;
                     EvWriteTo c4 (DHCPv4_ToBytes req4) dst4; EvClose c4]) /\
  (exists w',
     CheckIfOtherDHCPServersPresentV6 fuel6 name6 w6 =
       (Val (false, Some (ErrWrap "dhcpv6: Couldn't send a packet to %s: %w" e6)), w') /\
     events w6 w' = [EvBind name6 dhcpv6_DefaultClientPort (Some c6) None;
                     EvWriteTo c6 (Message_ToBytes req6) dst6; EvClose c6]).
Proof.
  intros Hr4 Hb4 Hs4 Hr6 Hb6 Hs6. split.
  - rewrite (V4_ready _ _ _ _ _ _ Hr4), Hb4, Hs4.
    eexists. split; [reflexivity|]. apply events_app. simpl. by rewrite <- !app_assoc.
  - rewrite (V6_ready _ _ _ _ _ _ Hr6), Hb6, Hs6.
    eexists. split; [reflexivity|]. apply events_app. simpl. by rewrite <- !app_assoc.
Qed.

(** X12.  The check [c != nil] guards the deferred close only: when a bind
    gives back neither an endpoint nor an error, each probe goes on to
    send on the nil endpoint and panics, the bind being all it has done. *)
Theorem probes_nil_endpoint_panics
    (fuel4 fuel6 : nat) (name4 name6 : string) (w4 w6 : World)
    iface4 req4 dst4 iface6 req6 dst6 :
  ReadyV4 w4 name4 iface4 req4 dst4 ->
  w_NewRawUDPConn w4 name4 68 = (None, None) ->
  ReadyV6 w6 name6 iface6 req6 dst6 ->
  w_NewIPv6UDPConn w6 name6 dhcpv6_DefaultClientPort = (None, None) ->
  CheckIfOtherDHCPServersPresentV4 fuel4 name4 w4 =
    (Panic, record (EvBind name4 68 None None) w4) /\
  CheckIfOtherDHCPServersPresentV6 fuel6 name6 w6 =
    (Panic, record (EvBind name6 dhcpv6_DefaultClientPort None None) w6).
Proof.
  intros Hr4 Hb4 Hr6 Hb6. split.
  - by rewrite (V4_ready _ _ _ _ _ _ Hr4), Hb4.
  - by rewrite (V6_ready _ _ _ _ _ _ Hr6), Hb6.
Qed.



(** X14.  Once the v4 probe has bound, it sends one datagram and no more,
    from the endpoint bound to the destination resolved: the encoding of
    the message that [dhcpv4.NewDiscovery] built, its transaction id and
    header fields unchanged, with the host-name option set to what
    [os.Hostname] gave (whether or not it gave an error) and the
    client-identifier option set from the hardware address of the
    interface; the other options are those of [dhcpv4.NewDiscovery]. *)
Theorem V4_request_sent
    (fuel : nat) (ifaceName : string) (w : World) iface req dstAddr c :
  ReadyV4 w ifaceName iface req dstAddr ->
  w_NewRawUDPConn w ifaceName 68 = (Some c, None) ->
  (length (w_inbound w) < fuel)%nat ->
  sent (events w (snd (CheckIfOtherDHCPServersPresentV4 fuel ifaceName w)))
    = [(c, DHCPv4_ToBytes req, dstAddr)] /\
  exists req0,
    w_NewDiscovery w (iface_HardwareAddr iface) = (Some req0, None) /\
    v4_TransactionID req = v4_TransactionID req0 /\
    v4_OpCode req = v4_OpCode req0 /\
    v4_HWType req = v4_HWType req0 /\
    v4_ClientHWAddr req = v4_ClientHWAddr req0 /\
    let host := dhcpv4_OptHostName (fst (w_Hostname w)) in
    let ident := dhcpv4_OptClientIdentifier (iface_HardwareAddr iface) in
    v4_Options req !! opt_Code host = Some (opt_Value host) /\
    (opt_Code ident <> opt_Code host ->
     v4_Options req !! opt_Code ident = Some (opt_Value ident)) /\
    (forall k, k <> opt_Code host -> k <> opt_Code ident ->
               v4_Options req !! k = v4_Options req0 !! k).
Proof.
  intros Hready Hbind Hfuel. split.
  - rewrite (V4_ready _ _ _ _ _ _ Hready), Hbind.
    destruct (w_WriteTo w c (DHCPv4_ToBytes req) dstAddr) as [n [e0|]]; simpl.
    + rewrite (events_app _ _ [EvBind ifaceName 68 (Some c) None;
                               EvWriteTo c (DHCPv4_ToBytes req) dstAddr; EvClose c]).
      { done. }
      simpl. by rewrite <- !app_assoc.
    + set (w1 := at_loop w ifaceName 68 c (DHCPv4_ToBytes req) dstAddr).
      destruct (loop_run c 1500 (recvV4 iface req c) (recvV4_poll iface req c) fuel w1)
        as (r & w' & evs & Hrun & Hex & Htr & _); [done|].
      destruct (loop_only_reads c 1500 (decodeV4 iface req) (recvV4 iface req c)
                  (recvV4_readOnce iface req c) (decodeV4_run iface req) fuel w1)
        as (evs' & Htr' & Hs & _); [done|].
      rewrite Hrun in Htr'. simpl in Htr'. rewrite Htr in Htr'.
      apply app_inv_head in Htr'. subst evs'.
      unfold defer. rewrite Hrun.
      rewrite (events_app w _ (EvBind ifaceName 68 (Some c) None
                               :: EvWriteTo c (DHCPv4_ToBytes req) dstAddr
                               :: evs ++ [EvClose c])).
      * unfold sent in *. simpl. by rewrite omap_app, Hs.
      * destruct Hex as [-> | [v ->]]; simpl; rewrite Htr; simpl;
          by rewrite <- !app_assoc.
  - destruct Hready as [_ _ _ (req0 & Hreq & ->) _].
    exists req0. split; [done|]. simpl. repeat split.
    + apply lookup_insert_eq.
    + intros Hne. rewrite lookup_insert_ne by done. apply lookup_insert_eq.
    + intros k Hk1 Hk2. by rewrite !lookup_insert_ne.
Qed.

End Further.

(** * More runs on the laboratory host *)

Lemma lab_ready4 bind sendErr inbound :
  ReadyV4 (pkg := Lab.package) (Lab.host bind sendErr inbound) "eth0"
    Lab.eth0 Lab.request4 (Some Lab.bcast4).
Proof.
  constructor; try reflexivity.
  - exists Lab.ip4, [], (mkUDPAddr Lab.ip4 68 ""). repeat split; reflexivity.
  - exists Lab.discover. split; reflexivity.
Qed.

Lemma lab_ready6 bind sendErr inbound :
  ReadyV6 (pkg := Lab.package) (Lab.host bind sendErr inbound) "eth0"
    Lab.eth0 (Some Lab.solicit) (Some Lab.mcast6).
Proof.
  constructor; try reflexivity.
  exists Lab.ip6, [], (mkUDPAddr Lab.ip6 546 "eth0"). repeat split; reflexivity.
Qed.

Lemma lab_setup4 inbound :
  SetupV4 (pkg := Lab.package) (Lab.world "linux" inbound) "eth0"
    Lab.eth0 Lab.request4 (Some Lab.bcast4) Lab.sock.
Proof.
  constructor; try reflexivity.
  - exists Lab.ip4, [], (mkUDPAddr Lab.ip4 68 ""). repeat split; reflexivity.
  - exists Lab.discover. split; reflexivity.
Qed.

Lemma lab_setup6 inbound :
  SetupV6 (pkg := Lab.package) (Lab.world "linux" inbound) "eth0"
    Lab.eth0 Lab.solicit (Some Lab.mcast6) Lab.sock.
Proof.
  constructor; try reflexivity.
  exists Lab.ip6, [], (mkUDPAddr Lab.ip6 546 "eth0"). repeat split; reflexivity.
Qed.

Lemma lab_offer_matching : matchingV4 (lib := Lab.library) Lab.eth0 Lab.request4 Lab.offer.
Proof.
  exists Lab.offer_response. split; [vm_compute; reflexivity|].
  repeat split; try reflexivity. vm_compute. eauto.
Qed.

Lemma lab_advertise_matching : matchingV6 (lib := Lab.library) Lab.solicit Lab.duid Lab.advertise.
Proof.
  exists (Lab.Plain Lab.advertise_message), Lab.advertise_message.
  split; [vm_compute; reflexivity|]. split; [reflexivity|].
  split; [reflexivity|]. split; [reflexivity|]. exists Lab.duid. by split.
Qed.

Lemma V4_true_only_on_match_witness :
  let w := Lab.world "linux" [(1000, inl Lab.junk); (2000, inl Lab.offer)] in
  (None : option error) = None /\
  exists iface req dstAddr c t p,
    SetupV4 (pkg := Lab.package) w "eth0" iface req dstAddr c /\
    In (t, inl p) (w_inbound w) /\
    matchingV4 (lib := Lab.library) iface req p.
Proof.
  intros w.
  apply (@V4_true_only_on_match Lab.library Lab.package 2 "eth0" w None).
  vm_compute. reflexivity.
Defined.

Lemma V6_true_only_on_match_witness :
  let w := Lab.world "linux" [(1000, inl Lab.junk); (2000, inl Lab.advertise)] in
  (None : option error) = None /\
  exists iface req dstAddr c cid t p,
    SetupV6 (pkg := Lab.package) w "eth0" iface req dstAddr c /\
    Options_ClientID (msg_Options req) = Some cid /\
    In (t, inl p) (w_inbound w) /\
    matchingV6 (lib := Lab.library) req cid p.
Proof.
  intros w.
  apply (@V6_true_only_on_match Lab.library Lab.package 2 "eth0" w None).
  vm_compute. reflexivity.
Defined.

Lemma probes_bind_only_when_ready_witness :
  let w := Lab.host (None, Some Lab.refused) None [] in
  (exists iface req dstAddr, ReadyV4 (pkg := Lab.package) w "eth0" iface req dstAddr) /\
  (exists iface req dstAddr, ReadyV6 (pkg := Lab.package) w "eth0" iface req dstAddr).
Proof.
  intros w.
  pose proof (@probes_bind_only_when_ready Lab.library Lab.package 1 1 "eth0" "eth0" w w)
    as [H4 H6].
  split.
  - apply H4. vm_compute. discriminate.
  - apply H6. vm_compute. discriminate.
Defined.

Lemma probes_time_bound_witness :
  let w4 := Lab.world "linux" [(1000, inl Lab.junk); (2000, inl Lab.offer)] in
  let w6 := Lab.world "linux" [(2000000000, inl Lab.junk); (4000000000, inl Lab.junk)] in
  w_now w4 <= w_now (snd (CheckIfOtherDHCPServersPresentV4 (pkg := Lab.package) 3 "eth0" w4))
    <= w_now w4 + Z.of_nat (S (length (w_inbound w4))) * @defaultDiscoverTime Lab.package /\
  w_now w6 <= w_now (snd (CheckIfOtherDHCPServersPresentV6 (pkg := Lab.package) 3 "eth0" w6))
    <= w_now w6 + Z.of_nat (S (length (w_inbound w6))) * @defaultDiscoverTime Lab.package.
Proof.
  intros w4 w6.
  apply (@probes_time_bound Lab.library Lab.package 3 3 "eth0" "eth0" w4 w6).
  - simpl. lia.
  - simpl. lia.
  - simpl. lia.
Defined.

Lemma probes_trace_shape_witness :
  let w4 := Lab.world "linux" [(1000, inl Lab.junk); (2000, inl Lab.offer)] in
  let w6 := Lab.host (Some Lab.sock, None) (Some Lab.refused) [] in
  probe_trace (pkg := Lab.package) "eth0" 68 1500 (w_now w4)
    (events w4 (snd (CheckIfOtherDHCPServersPresentV4 (pkg := Lab.package) 3 "eth0" w4))) /\
  (probe_trace (pkg := Lab.package) "eth0" dhcpv6_DefaultClientPort 4096 (w_now w6)
     (events w6 (snd (CheckIfOtherDHCPServersPresentV6 (pkg := Lab.package) 1 "eth0" w6))) \/
   exists c,
     events w6 (snd (CheckIfOtherDHCPServersPresentV6 (pkg := Lab.package) 1 "eth0" w6))
       = [EvBind "eth0" dhcpv6_DefaultClientPort (Some c) None; EvClose c]).
Proof.
  intros w4 w6.
  apply (@probes_trace_shape Lab.library Lab.package 3 1 "eth0" "eth0" w4 w6).
  - simpl. lia.
  - simpl. lia.
  - simpl. lia.
Defined.

Lemma V4_times_out_after_skips_witness :
  let w := Lab.world "linux" [(1000, inl Lab.junk); (5000000000, inl Lab.offer)] in
  exists w',
    CheckIfOtherDHCPServersPresentV4 (pkg := Lab.package) 2 "eth0" w
      = (Val (false, None), w') /\
    w_inbound w' = [(5000000000, inl Lab.offer)] /\
    w_now w' = latest 0 [(1000, Lab.junk)] + @defaultDiscoverTime Lab.package /\
    length (reads (events w w')) = 2%nat.
Proof.
  intros w.
  apply (@V4_times_out_after_skips Lab.library Lab.package 2 "eth0" w
           Lab.eth0 Lab.request4 (Some Lab.bcast4) Lab.sock
           [(1000, Lab.junk)] [(5000000000, inl Lab.offer)]).
  - reflexivity.
  - reflexivity.
  - simpl. lia.
  - apply lab_setup4.
  - reflexivity.
  - constructor; [exact I | constructor].
  - simpl. lia.
  - vm_compute. reflexivity.
  - simpl. lia.
Defined.

Lemma V6_times_out_after_skips_witness :
  let w := Lab.world "linux" [(1000, inl Lab.junk); (5000000000, inl Lab.advertise)] in
  exists w',
    CheckIfOtherDHCPServersPresentV6 (pkg := Lab.package) 2 "eth0" w
      = (Val (false, None), w') /\
    w_inbound w' = [(5000000000, inl Lab.advertise)] /\
    w_now w' = latest 0 [(1000, Lab.junk)] + @defaultDiscoverTime Lab.package /\
    length (reads (events w w')) = 2%nat.
Proof.
  intros w.
  apply (@V6_times_out_after_skips Lab.library Lab.package 2 "eth0" w
           Lab.eth0 Lab.solicit (Some Lab.mcast6) Lab.sock Lab.duid
           [(1000, Lab.junk)] [(5000000000, inl Lab.advertise)]).
  - reflexivity.
  - reflexivity.
  - simpl. lia.
  - apply lab_setup6.
  - reflexivity.
  - reflexivity.
  - constructor; [exact I | constructor].
  - simpl. lia.
  - vm_compute. reflexivity.
  - simpl. lia.
Defined.

Lemma V4_accepts_promptly_witness :
  let w := Lab.world "linux"
             [(1000, inl Lab.junk); (2000, inl Lab.offer); (2500, inl Lab.offer)] in
  exists w',
    CheckIfOtherDHCPServersPresentV4 (pkg := Lab.package) 2 "eth0" w
      = (Val (true, None), w') /\
    w_inbound w' = [(2500, inl Lab.offer)] /\
    w_now w' = latest 0 [(1000, Lab.junk); (2000, Lab.offer)] /\
    length (reads (events w w')) = 2%nat.
Proof.
  intros w.
  apply (@V4_accepts_promptly Lab.library Lab.package 2 "eth0" w
           Lab.eth0 Lab.request4 (Some Lab.bcast4) Lab.sock
           [(1000, Lab.junk)] 2000 Lab.offer [(2500, inl Lab.offer)]).
  - reflexivity.
  - apply lab_setup4.
  - reflexivity.
  - constructor; [exact I | constructor].
  - apply lab_offer_matching.
  - simpl. lia.
  - simpl. lia.
Defined.

Lemma V6_accepts_promptly_witness :
  let w := Lab.world "linux"
             [(1000, inl Lab.junk); (2000, inl Lab.advertise); (2500, inl Lab.junk)] in
  exists w',
    CheckIfOtherDHCPServersPresentV6 (pkg := Lab.package) 2 "eth0" w
      = (Val (true, None), w') /\
    w_inbound w' = [(2500, inl Lab.junk)] /\
    w_now w' = latest 0 [(1000, Lab.junk); (2000, Lab.advertise)] /\
    length (reads (events w w')) = 2%nat.
Proof.
  intros w.
  apply (@V6_accepts_promptly Lab.library Lab.package 2 "eth0" w
           Lab.eth0 Lab.solicit (Some Lab.mcast6) Lab.sock Lab.duid
           [(1000, Lab.junk)] 2000 Lab.advertise [(2500, inl Lab.junk)]).
  - reflexivity.
  - apply lab_setup6.
  - reflexivity.
  - reflexivity.
  - constructor; [exact I | constructor].
  - apply lab_advertise_matching.
  - simpl. lia.
  - simpl. lia.
Defined.

Lemma probes_bind_error_witness :
  let w := Lab.host (None, Some Lab.refused) None [(1000, inl Lab.offer)] in
  CheckIfOtherDHCPServersPresentV4 (pkg := Lab.package) 2 "eth0" w =
    (Val (false, Some (ErrWrap "couldn't listen on :68: %w" Lab.refused)),
     record (EvBind "eth0" 68 None (Some Lab.refused)) w) /\
  CheckIfOtherDHCPServersPresentV6 (pkg := Lab.package) 2 "eth0" w =
    (Val (false, Some (ErrWrap "dhcpv6: Couldn't listen on :546: %w" Lab.refused)),
     record (EvBind "eth0" dhcpv6_DefaultClientPort None (Some Lab.refused)) w).
Proof.
  intros w.
  apply (@probes_bind_error Lab.library Lab.package 2 2 "eth0" "eth0" w w
           Lab.eth0 Lab.request4 (Some Lab.bcast4) None Lab.refused
           Lab.eth0 (Some Lab.solicit) (Some Lab.mcast6) None Lab.refused).
  - apply lab_ready4.
  - reflexivity.
  - apply lab_ready6.
  - reflexivity.
Defined.

Lemma probes_send_error_witness :
  let w := Lab.host (Some Lab.sock, None) (Some Lab.refused) [(1000, inl Lab.offer)] in
  (exists w',
     CheckIfOtherDHCPServersPresentV4 (pkg := Lab.package) 2 "eth0" w =
       (Val (false, Some (ErrWrap "couldn't send a packet to %s: %w" Lab.refused)), w') /\
     events w w' = [EvBind "eth0" 68 (Some Lab.sock) None;
                    EvWriteTo Lab.sock (@DHCPv4_ToBytes Lab.library Lab.request4) (Some Lab.bcast4);
                    EvClose Lab.sock]) /\
  (exists w',
     CheckIfOtherDHCPServersPresentV6 (pkg := Lab.package) 2 "eth0" w =
       (Val (false, Some (ErrWrap "dhcpv6: Couldn't send a packet to %s: %w" Lab.refused)),
        w') /\
     events w w' = [EvBind "eth0" dhcpv6_DefaultClientPort (Some Lab.sock) None;
                    EvWriteTo Lab.sock (@Message_ToBytes Lab.library Lab.solicit) (Some Lab.mcast6);
                    EvClose Lab.sock]).
Proof.
  intros w.
  apply (@probes_send_error Lab.library Lab.package 2 2 "eth0" "eth0" w w
           Lab.eth0 Lab.request4 (Some Lab.bcast4) Lab.sock 16 Lab.refused
           Lab.eth0 Lab.solicit (Some Lab.mcast6) Lab.sock 14 Lab.refused).
  - apply lab_ready4.
  - reflexivity.
  - vm_compute. reflexivity.
  - apply lab_ready6.
  - reflexivity.
  - vm_compute. reflexivity.
Defined.

Lemma probes_nil_endpoint_panics_witness :
  let w := Lab.host (None, None) None [(1000, inl Lab.offer)] in
  CheckIfOtherDHCPServersPresentV4 (pkg := Lab.package) 2 "eth0" w =
    (Panic, record (EvBind "eth0" 68 None None) w) /\
  CheckIfOtherDHCPServersPresentV6 (pkg := Lab.package) 2 "eth0" w =
    (Panic, record (EvBind "eth0" dhcpv6_DefaultClientPort None None) w).
Proof.
  intros w.
  apply (@probes_nil_endpoint_panics Lab.library Lab.package 2 2 "eth0" "eth0" w w
           Lab.eth0 Lab.request4 (Some Lab.bcast4)
           Lab.eth0 (Some Lab.solicit) (Some Lab.mcast6)).
  - apply lab_ready4.
  - reflexivity.
  - apply lab_ready6.
  - reflexivity.
Defined.


Lemma V4_request_sent_witness :
  let w := Lab.world "linux" [(1000, inl Lab.offer)] in
  sent (events w (snd (CheckIfOtherDHCPServersPresentV4 (pkg := Lab.package) 2 "eth0" w)))
    = [(Lab.sock, @DHCPv4_ToBytes Lab.library Lab.request4, Some Lab.bcast4)].
Proof.
  intros w.
  apply (@V4_request_sent Lab.library Lab.package 2 "eth0" w
           Lab.eth0 Lab.request4 (Some Lab.bcast4) Lab.sock).
  - apply lab_ready4.
  - reflexivity.
  - simpl. lia.
Defined.
